(** * telco_churn.model_deployment: comparison and promotion of a Staging model

    A shallow embedding of [src/telco_churn/model_deployment.py].  The class
    [ModelDeployment] scores the Staging and the Production model of a
    registered model on a reference table, compares one evaluation metric and
    either promotes or archives the Staging candidate.

    The module only orchestrates calls to collaborators (MLflow tracking, the
    MLflow Model Registry, [ModelInference], [ModelEvaluation]).  The
    embedding is a state-and-exception monad over a [World] that records every
    call made to a collaborator; what the collaborators answer is supplied by
    a [Platform]. *)

From Stdlib Require Import ZArith NArith Bool Lia.
From Stdlib Require Import Floats.SpecFloat.
From stdpp Require Import base option list gmap strings.

(** ** Python values used by the module *)

(** Python [float] is IEEE 754 binary64; [spec_float] has the same
    comparison semantics (signed zeros compare equal, NaN is unordered). *)
Abbreviation float := spec_float.

Definition py_le (x y : float) : bool := SFleb x y.
Definition py_lt (x y : float) : bool := SFltb x y.
Definition py_ge (x y : float) : bool := SFleb y x.
Definition py_gt (x y : float) : bool := SFltb y x.

Definition is_nan (x : float) : bool :=
  match x with S754_nan => true | _ => false end.

(** A pandas [Series] and a data frame seen as its named columns. *)
Definition Series := list float.
Abbreviation DataFrame := (gmap string Series).

(** The dictionary returned by [ModelEvaluation().evaluate]. *)
Abbreviation EvalDict := (gmap string float).

(** Exceptions that can leave the module. *)
Inductive Exn : Type :=
  | RuntimeError (msg : string)
  | KeyError (key : string)
  | IndexError
  | CollaboratorError (what : string).

Inductive Result (A : Type) : Type :=
  | Ok (a : A)
  | Raise (e : Exn).
Arguments Ok {A} a.
Arguments Raise {A} e.

(** ** The dataclass *)

Record ModelDeployment : Type := {
  model_registry_name : string;
  reference_data : string;
  label_col : string;
  comparison_metric : string;
  higher_is_better : bool;
  experiment_id : option Z;
  experiment_path : option string
}.

(** ** Collaborators: calls, state and answers *)

Inductive RunStatus : Type := FINISHED | FAILED.

(** One constructor per call the module makes to a collaborator, with the
    arguments it passes. *)
Inductive Call : Type :=
  | set_experiment_by_id (experiment_id : Z)
  | set_experiment_by_name (experiment_name : string)
  | start_run (run_name : string)
  | end_run (status : RunStatus)
  | run_batch (model_uri inference_data : string)
  | toPandas (df : DataFrame)
  | evaluate (y_true y_score : Series) (metric_prefix : string)
  | log_metrics (metrics : EvalDict)
  | get_latest_versions (name : string) (stages : list string)
  | transition_model_version_stage
      (name : string) (version : N) (stage : string)
      (archive_existing_versions : bool).

(** Messages passed to [_logger.info]. *)
Inductive LogRecord : Type :=
  | log_computing_inference (model_uri : string)
  | log_reference_data (reference_data : string)
  | log_staging_metric (metric : string) (value : float)
  | log_production_metric (metric : string) (value : float)
  | log_metric (metric : string)
  | log_higher_is_better (flag : bool)
  | log_does_not_perform_better
  | log_transition_to_archived
  | log_does_perform_better
  | log_transition_to_production
  | log_existing_production_archived.

(** Modelled from the spec: the registry's version and stage storage is an
    external collaborator (spec 3, "Registry Version State": each model
    version carries a stage label in staging, production, archived). *)
Inductive Stage : Type := Staging | Production | Archived.

Global Instance Stage_eq_dec : EqDecision Stage.
Proof. solve_decision. Defined.

Record ModelVersion : Type := {
  mv_name : string;
  mv_version : N;
  current_stage : Stage
}.

Abbreviation Registry := (list ModelVersion).

(** Modelled from the spec: the tracking store (spec 6, "Tracking Store":
    set_experiment, start_run giving a scoped run handle, log_metrics). *)
Inductive ExperimentRef : Type :=
  | by_id (experiment_id : Z)
  | by_name (experiment_name : string).

Record Tracking : Type := {
  active_experiment : option ExperimentRef;
  active_runs : list string;
  ended_runs : list (string * RunStatus);
  logged : list EvalDict
}.

Record World : Type := {
  tracking : Tracking;
  registry : Registry;
  calls : list Call;
  logs : list LogRecord
}.

(** What the collaborators answer.  [fault c w] is the exception call [c]
    raises in world [w], if it raises; a call that raises leaves the
    collaborators' state as it was.  [inference] and [evaluation] give the
    values [ModelInference.run_batch] and [ModelEvaluation.evaluate] return
    when they do not raise. *)
Record Platform : Type := {
  fault : Call -> World -> option Exn;
  inference : string -> string -> Registry -> DataFrame;
  evaluation : Series -> Series -> string -> EvalDict
}.

(** ** The monad: state, exceptions, recorded calls *)

Definition M (A : Type) : Type := World -> Result A * World.

Definition ret {A} (a : A) : M A := fun w => (Ok a, w).

Definition raise {A} (e : Exn) : M A := fun w => (Raise e, w).

Definition bind {A B} (m : M A) (k : A -> M B) : M B :=
  fun w =>
    match m w with
    | (Ok a, w') => k a w'
    | (Raise e, w') => (Raise e, w')
    end.

Notation "'let*' x ':=' m 'in' k" := (bind m (fun x => k))
  (at level 10, x pattern, m at level 100, k at level 200, only parsing).
Notation "m ';;' k" := (bind m (fun _ => k))
  (at level 100, k at level 200, right associativity, only parsing).

Definition record_call (c : Call) (w : World) : World :=
  {| tracking := tracking w; registry := registry w;
     calls := calls w ++ [c]; logs := logs w |}.

Definition set_tracking (t : Tracking) (w : World) : World :=
  {| tracking := t; registry := registry w;
     calls := calls w; logs := logs w |}.

Definition set_registry (r : Registry) (w : World) : World :=
  {| tracking := tracking w; registry := r;
     calls := calls w; logs := logs w |}.

(** A call to a collaborator: recorded, then either the fault the platform
    injects or the collaborator's own semantics. *)
Definition external {A} (P : Platform) (c : Call) (sem : M A) : M A :=
  fun w =>
    match fault P c w with
    | Some e => (Raise e, record_call c w)
    | None => sem (record_call c w)
    end.

(** [_logger.info(...)] *)
Definition info (r : LogRecord) : M unit :=
  fun w => (Ok tt, {| tracking := tracking w; registry := registry w;
                      calls := calls w; logs := logs w ++ [r] |}).

(** The [with] statement: [exit] plays [__exit__], called with the exception
    of the body if there is one; a true answer suppresses that exception. *)
Definition with_ (enter : M unit) (exit : option Exn -> M bool)
    (body : M unit) : M unit :=
  fun w =>
    match enter w with
    | (Raise e, w1) => (Raise e, w1)
    | (Ok _, w1) =>
        match body w1 with
        | (Ok _, w2) =>
            match exit None w2 with
            | (Ok _, w3) => (Ok tt, w3)
            | (Raise e', w3) => (Raise e', w3)
            end
        | (Raise e, w2) =>
            match exit (Some e) w2 with
            | (Ok true, w3) => (Ok tt, w3)
            | (Ok false, w3) => (Raise e, w3)
            | (Raise e', w3) => (Raise e', w3)
            end
        end
    end.

(** ** Semantics of the collaborators *)

(** Modelled from the spec: the tracking store's set_experiment (spec 6);
    the selected experiment becomes the active one. *)
Definition tracking_set_experiment (r : ExperimentRef) (t : Tracking) : Tracking :=
  {| active_experiment := Some r; active_runs := active_runs t;
     ended_runs := ended_runs t; logged := logged t |}.

(** Modelled from the spec: the tracking store's start_run (spec 6); it
    opens a run scope. *)
Definition tracking_start_run (run_name : string) (t : Tracking) : Tracking :=
  {| active_experiment := active_experiment t;
     active_runs := run_name :: active_runs t;
     ended_runs := ended_runs t; logged := logged t |}.

(** Modelled from the spec: closing the run scope (spec 5: the run is
    marked finished); the innermost open run ends with the given status. *)
Definition tracking_end_run (status : RunStatus) (t : Tracking) : Tracking :=
  match active_runs t with
  | [] => t
  | r :: rs =>
      {| active_experiment := active_experiment t; active_runs := rs;
         ended_runs := ended_runs t ++ [(r, status)]; logged := logged t |}
  end.

(** Modelled from the spec: the tracking store's log_metrics (spec 6);
    the dictionaries logged are kept in order. *)
Definition tracking_log_metrics (d : EvalDict) (t : Tracking) : Tracking :=
  {| active_experiment := active_experiment t; active_runs := active_runs t;
     ended_runs := ended_runs t; logged := logged t ++ [d] |}.

(** Modelled from the spec: the stage names of the registry (glossary,
    "Stage"), accepted in lower case, as the module writes them, and
    capitalised. *)
Definition stage_of_string (s : string) : option Stage :=
  if decide (s = "staging" ∨ s = "Staging") then Some Staging
  else if decide (s = "production" ∨ s = "Production") then Some Production
  else if decide (s = "archived" ∨ s = "Archived") then Some Archived
  else None.

(** Is [mv] a version of model [name] in stage [st]? *)
Definition in_stage (name : string) (st : Stage) (mv : ModelVersion) : bool :=
  bool_decide (mv_name mv = name) && bool_decide (current_stage mv = st).

(** Of two versions, the one with the higher number. *)
Definition newer (a b : ModelVersion) : ModelVersion :=
  if (mv_version a <? mv_version b)%N then b else a.

(** The most recent version among [l]: the one with the highest number. *)
Definition most_recent (l : list ModelVersion) : option ModelVersion :=
  match l with
  | [] => None
  | x :: xs => Some (foldl newer x xs)
  end.

(** Modelled from the spec: the Registry Client's latest_version (spec 6),
    the most recent version of a model in a stage (spec 4.1). *)
Definition latest_version (reg : Registry) (name : string) (st : Stage)
    : option ModelVersion :=
  most_recent (filter (fun mv => in_stage name st mv = true) reg).

(** Modelled from the spec: the Registry Client's lookup as the module calls
    it, with a list of stages: the latest version of each stage that has
    one, in the order of the stages. *)
Fixpoint registry_get_latest_versions (reg : Registry) (name : string)
    (stages : list string) : Result (list ModelVersion) :=
  match stages with
  | [] => Ok []
  | s :: rest =>
      match stage_of_string s with
      | None => Raise (CollaboratorError "invalid stage")
      | Some st =>
          match registry_get_latest_versions reg name rest with
          | Raise e => Raise e
          | Ok l => Ok (option_list (latest_version reg name st) ++ l)
          end
      end
  end.

(** [mv] moved to stage [st]. *)
Definition with_stage (st : Stage) (mv : ModelVersion) : ModelVersion :=
  {| mv_name := mv_name mv; mv_version := mv_version mv; current_stage := st |}.

(** Is [mv] version [version] of model [name]? *)
Definition is_version (name : string) (version : N) (mv : ModelVersion) : bool :=
  bool_decide (mv_name mv = name) && (mv_version mv =? version)%N.

(** Modelled from the spec: what a transition does to one version of the
    registry (spec 3): the version named moves to the new stage; with
    archive_existing, the other versions of the model in that stage move to
    Archived; every other version is left alone. *)
Definition transition_one (name : string) (version : N) (st : Stage)
    (archive_existing : bool) (mv : ModelVersion) : ModelVersion :=
  if is_version name version mv then with_stage st mv
  else if archive_existing && in_stage name st mv then with_stage Archived mv
  else mv.

(** Modelled from the spec: the Registry Client's transition_stage (spec 6).
    The registry rejects a stage it does not know, a version it does not
    have, and archiving the existing versions of a stage that is not
    Staging or Production. *)
Definition registry_transition (reg : Registry) (name : string) (version : N)
    (stage : string) (archive_existing : bool) : Result Registry :=
  match stage_of_string stage with
  | None => Raise (CollaboratorError "invalid stage")
  | Some st =>
      if negb (existsb (is_version name version) reg)
      then Raise (CollaboratorError "model version not found")
      else if archive_existing && bool_decide (st = Archived)
      then Raise (CollaboratorError "cannot archive existing versions")
      else Ok (map (transition_one name version st archive_existing) reg)
  end.

(** ** Calls to MLflow, [ModelInference] and [ModelEvaluation] *)

Section Collaborators.
Variable P : Platform.

(** A change of the tracking store. *)
Definition update_tracking (f : Tracking -> Tracking) : M unit :=
  fun w => (Ok tt, set_tracking (f (tracking w)) w).

(** [mlflow.set_experiment(experiment_id=...)] *)
Definition mlflow_set_experiment_id (i : Z) : M unit :=
  external P (set_experiment_by_id i)
    (update_tracking (tracking_set_experiment (by_id i))).

(** [mlflow.set_experiment(experiment_name=...)] *)
Definition mlflow_set_experiment_name (p : string) : M unit :=
  external P (set_experiment_by_name p)
    (update_tracking (tracking_set_experiment (by_name p))).

(** [mlflow.start_run(run_name=...)] *)
Definition mlflow_start_run (run_name : string) : M unit :=
  external P (start_run run_name)
    (update_tracking (tracking_start_run run_name)).

(** [mlflow.end_run(status)], called when the run scope is left. *)
Definition mlflow_end_run (status : RunStatus) : M unit :=
  external P (end_run status) (update_tracking (tracking_end_run status)).

(** Modelled from the spec: the [__exit__] of the scoped run handle that
    [mlflow.start_run] gives (spec 4.1 "Run", 7): the run is ended, FINISHED
    when the body raised nothing and FAILED otherwise, and the exception of
    the body is not suppressed. *)
Definition active_run_exit (exc : option Exn) : M bool :=
  match exc with
  | None => (mlflow_end_run FINISHED ;; ret true)
  | Some _ => (mlflow_end_run FAILED ;; ret false)
  end.

(** [mlflow.log_metrics(eval_dict)] *)
Definition mlflow_log_metrics (d : EvalDict) : M unit :=
  external P (log_metrics d) (update_tracking (tracking_log_metrics d)).

(** [ModelInference(model_uri=..., inference_data=...).run_batch()] *)
Definition ModelInference_run_batch (model_uri inference_data : string)
    : M DataFrame :=
  external P (run_batch model_uri inference_data)
    (fun w => (Ok (inference P model_uri inference_data (registry w)), w)).

(** [df.toPandas()] *)
Definition df_toPandas (df : DataFrame) : M DataFrame :=
  external P (toPandas df) (ret df).

(** [pdf[col]] *)
Definition getitem_column (pdf : DataFrame) (col : string) : M Series :=
  match pdf !! col with
  | Some s => ret s
  | None => raise (KeyError col)
  end.

(** [ModelEvaluation().evaluate(y_true, y_score, metric_prefix=...)] *)
Definition ModelEvaluation_evaluate (y_true y_score : Series)
    (metric_prefix : string) : M EvalDict :=
  external P (evaluate y_true y_score metric_prefix)
    (ret (evaluation P y_true y_score metric_prefix)).

(** [client.get_latest_versions(name=..., stages=...)] *)
Definition client_get_latest_versions (name : string) (stages : list string)
    : M (list ModelVersion) :=
  external P (get_latest_versions name stages)
    (fun w => (registry_get_latest_versions (registry w) name stages, w)).

(** [client.transition_model_version_stage(...)]; the parameter
    [archive_existing_versions] defaults to [False]. *)
Definition client_transition_model_version_stage (name : string)
    (version : N) (stage : string) (archive_existing_versions : bool)
    : M unit :=
  external P
    (transition_model_version_stage name version stage
       archive_existing_versions)
    (fun w =>
       match registry_transition (registry w) name version stage
               archive_existing_versions with
       | Ok reg' => (Ok tt, set_registry reg' w)
       | Raise e => (Raise e, w)
       end).

(** [l[0]] *)
Definition getitem_0 {A} (l : list A) : M A :=
  match l with
  | x :: _ => ret x
  | [] => raise IndexError
  end.

End Collaborators.

(** ** The methods of [ModelDeployment] *)

Section Methods.
Variable P : Platform.

Definition _set_experiment (self : ModelDeployment) : M unit :=
  match experiment_id self with
  | Some i => mlflow_set_experiment_id P i
  | None =>
      match experiment_path self with
      | Some p => mlflow_set_experiment_name P p
      | None =>
          raise (RuntimeError
            "MLflow experiment_id or experiment_path must be set in mlflow_params")
      end
  end.

Definition _get_model_uri_by_stage (self : ModelDeployment) (stage : string)
    : string :=
  "models:/" +:+ model_registry_name self +:+ "/" +:+ stage.

Definition _batch_inference_by_stage (self : ModelDeployment)
    (stage : string) : M DataFrame :=
  let model_uri := _get_model_uri_by_stage self stage in
  info (log_computing_inference model_uri) ;;
  info (log_reference_data (reference_data self)) ;;
  ModelInference_run_batch P model_uri (reference_data self).

Definition _get_evaluation_metric (y_true y_score : Series)
    (metric stage : string) : M float :=
  let metric_prefix := stage +:+ "_" in
  let* eval_dict := ModelEvaluation_evaluate P y_true y_score metric_prefix in
  mlflow_log_metrics P eval_dict ;;
  match eval_dict !! (metric_prefix +:+ metric) with
  | Some eval_metric => ret eval_metric
  | None => raise (KeyError (metric_prefix +:+ metric))
  end.

Definition _run_promotion_logic (self : ModelDeployment)
    (staging_eval_metric production_eval_metric : float) : M unit :=
  let* versions :=
    client_get_latest_versions P (model_registry_name self) ["staging"] in
  let* staging_model_version := getitem_0 versions in
  info (log_metric (comparison_metric self)) ;;
  info (log_higher_is_better (higher_is_better self)) ;;
  if higher_is_better self then
    if py_le staging_eval_metric production_eval_metric then
      info log_does_not_perform_better ;;
      info log_transition_to_archived ;;
      client_transition_model_version_stage P (model_registry_name self)
        (mv_version staging_model_version) "archived" false
    else if py_gt staging_eval_metric production_eval_metric then
      info log_does_perform_better ;;
      info log_transition_to_production ;;
      info log_existing_production_archived ;;
      client_transition_model_version_stage P (model_registry_name self)
        (mv_version staging_model_version) "production" true
    else ret tt
  else
    if py_ge staging_eval_metric production_eval_metric then
      info log_does_not_perform_better ;;
      info log_transition_to_archived ;;
      client_transition_model_version_stage P (model_registry_name self)
        (mv_version staging_model_version) "archived" false
    else if py_lt staging_eval_metric production_eval_metric then
      info log_does_perform_better ;;
      info log_transition_to_production ;;
      info log_existing_production_archived ;;
      client_transition_model_version_stage P (model_registry_name self)
        (mv_version staging_model_version) "production" true
    else ret tt.

(** The body of the [with] statement of [run]. *)
Definition run_body (self : ModelDeployment) : M unit :=
  let* staging_inference_pred_df := _batch_inference_by_stage self "staging" in
  let* prod_inference_pred_df := _batch_inference_by_stage self "production" in
  let* staging_inference_pred_pdf := df_toPandas P staging_inference_pred_df in
  let* prod_inference_pred_pdf := df_toPandas P prod_inference_pred_df in
  let* staging_y_true :=
    getitem_column staging_inference_pred_pdf (label_col self) in
  let* staging_y_score :=
    getitem_column staging_inference_pred_pdf "prediction" in
  let* staging_eval_metric :=
    _get_evaluation_metric staging_y_true staging_y_score
      (comparison_metric self) "staging" in
  info (log_staging_metric (comparison_metric self) staging_eval_metric) ;;
  let* prod_y_true :=
    getitem_column prod_inference_pred_pdf (label_col self) in
  let* prod_y_score :=
    getitem_column prod_inference_pred_pdf "prediction" in
  let* production_eval_metric :=
    _get_evaluation_metric prod_y_true prod_y_score
      (comparison_metric self) "production" in
  info (log_production_metric (comparison_metric self) production_eval_metric) ;;
  _run_promotion_logic self staging_eval_metric production_eval_metric.

Definition run (self : ModelDeployment) : M unit :=
  _set_experiment self ;;
  with_ (mlflow_start_run P "Model Comparison") (active_run_exit P)
    (run_body self).

End Methods.

(** ** Observations on executions *)

(** The calls a computation adds to the record of a world. *)
Definition issued {A} (m : M A) (w : World) : list Call :=
  drop (length (calls w)) (calls (m w).2).

(** The stage transitions among a list of calls, with their arguments. *)
Definition transitions (cs : list Call) : list (string * N * string * bool) :=
  omap (fun c =>
          match c with
          | transition_model_version_stage n v s a => Some (n, v, s, a)
          | _ => None
          end) cs.

(** The promotion policy in the words of the specification (4.1, "Promotion
    decision"): four cases over the flag and the order of the two metrics.
    It is compared with [_run_promotion_logic] below. *)
Inductive Decision : Type := archive_staging | promote_staging.

Inductive policy : bool -> float -> float -> Decision -> Prop :=
  | higher_not_above (s p : float) :
      py_le s p = true -> policy true s p archive_staging
  | higher_above (s p : float) :
      py_gt s p = true -> policy true s p promote_staging
  | lower_not_below (s p : float) :
      py_ge s p = true -> policy false s p archive_staging
  | lower_below (s p : float) :
      py_lt s p = true -> policy false s p promote_staging.

(** The registry call that carries out a decision on version [version] of
    model [name], and the stage the version is in afterwards. *)
Definition decision_stage (d : Decision) : string :=
  match d with
  | archive_staging => "archived"
  | promote_staging => "production"
  end.

Definition decision_archive_existing (d : Decision) : bool :=
  match d with
  | archive_staging => false
  | promote_staging => true
  end.

Definition decision_call (name : string) (version : N) (d : Decision) : Call :=
  transition_model_version_stage name version (decision_stage d)
    (decision_archive_existing d).

Definition target_stage (d : Decision) : Stage :=
  match d with
  | archive_staging => Archived
  | promote_staging => Production
  end.

(** What carrying out a decision does to the registry. *)
Definition apply_decision (name : string) (version : N) (d : Decision)
    (reg : Registry) : Registry :=
  map (transition_one name version (target_stage d)
         (decision_archive_existing d)) reg.

(** A version number identifies one version of a model. *)
Definition version_key (mv : ModelVersion) : string * N :=
  (mv_name mv, mv_version mv).

Definition well_formed (reg : Registry) : Prop :=
  NoDup (version_key <$> reg).

(** The moves of one version between stages that the specification allows
    in a run (4.1, state machine), by decision. *)
Inductive stage_move : Decision -> Stage -> Stage -> Prop :=
  | stays (d : Decision) (st : Stage) : stage_move d st st
  | candidate_archived : stage_move archive_staging Staging Archived
  | candidate_promoted : stage_move promote_staging Staging Production
  | incumbent_archived : stage_move promote_staging Production Archived.

Definition version_move (d : Decision) (mv mv' : ModelVersion) : Prop :=
  version_key mv = version_key mv' /\
  stage_move d (current_stage mv) (current_stage mv').

(** Calls to the Registry Client. *)
Definition registry_call (c : Call) : bool :=
  match c with
  | get_latest_versions _ _ | transition_model_version_stage _ _ _ _ => true
  | _ => false
  end.

(** ** A scenario for the examples of the specification (8) *)

(** The binary64 values of 0.85, 0.80, 0.10 and 0.20. *)
Definition metric_0_85 : float := S754_finite false 7656119366529843 (-53).
Definition metric_0_80 : float := S754_finite false 7205759403792794 (-53).
Definition metric_0_10 : float := S754_finite false 7205759403792794 (-56).
Definition metric_0_20 : float := S754_finite false 7205759403792794 (-55).

Definition example_frame : DataFrame :=
  <["churn" := [S754_zero false; metric_0_80]]>
    {["prediction" := [metric_0_10; metric_0_85]]}.

(** Collaborators that never raise; the Evaluator knows the metric "auc"
    only and gives [staging] for the Staging model and [production] for the
    Production model. *)
Definition example_platform (staging production : float) : Platform :=
  {| fault := fun _ _ => None;
     inference := fun _ _ _ => example_frame;
     evaluation := fun _ _ prefix =>
       {[ prefix +:+ "auc" :=
            if bool_decide (prefix = "staging_") then staging else production ]} |}.

Definition example_registry : Registry :=
  [ {| mv_name := "telco_churn"; mv_version := 1; current_stage := Archived |};
    {| mv_name := "telco_churn"; mv_version := 2; current_stage := Production |};
    {| mv_name := "telco_churn"; mv_version := 3; current_stage := Staging |};
    {| mv_name := "telco_churn"; mv_version := 4; current_stage := Staging |};
    {| mv_name := "other_model"; mv_version := 7; current_stage := Production |} ].

Definition example_world : World :=
  {| tracking := {| active_experiment := None; active_runs := [];
                    ended_runs := []; logged := [] |};
     registry := example_registry;
     calls := [];
     logs := [] |}.

Definition example_deployment (metric : string) (flag : bool)
    : ModelDeployment :=
  {| model_registry_name := "telco_churn";
     reference_data := "telco_churn_labels";
     label_col := "churn";
     comparison_metric := metric;
     higher_is_better := flag;
     experiment_id := Some 42%Z;
     experiment_path := None |}.

(** ** Further observations on executions *)

(** The records a computation adds to the log of a world. *)
Definition recorded {A} (m : M A) (w : World) : list LogRecord :=
  drop (length (logs w)) (logs (m w).2).

(** The dictionaries a computation adds to those logged in the tracking
    store. *)
Definition logged_by {A} (m : M A) (w : World) : list EvalDict :=
  drop (length (logged (tracking w))) (logged (tracking (m w).2)).

(** Calls to the Inference Runner, and calls that compute or log metrics. *)
Definition inference_call (c : Call) : bool :=
  match c with
  | run_batch _ _ | toPandas _ => true
  | _ => false
  end.

Definition metric_call (c : Call) : bool :=
  match c with
  | evaluate _ _ _ | log_metrics _ => true
  | _ => false
  end.

(** Does a string contain the character '/'? *)
Fixpoint has_slash (s : string) : bool :=
  match s with
  | EmptyString => false
  | String c s' => bool_decide (String c EmptyString = "/") || has_slash s'
  end.

(** Calls that select the experiment or start the run. *)
Definition setup_call (c : Call) : bool :=
  match c with
  | set_experiment_by_id _ | set_experiment_by_name _ | start_run _ => true
  | _ => false
  end.

(** The experiment a deployment asks for, if it asks for one. *)
Definition selected_experiment (self : ModelDeployment) : option ExperimentRef :=
  match experiment_id self, experiment_path self with
  | Some i, _ => Some (by_id i)
  | None, Some p => Some (by_name p)
  | None, None => None
  end.




(** The example world with a registry that has no version in Staging. *)
Definition no_staging_world : World :=
  {| tracking := tracking example_world;
     registry :=
       [ {| mv_name := "telco_churn"; mv_version := 1; current_stage := Archived |};
         {| mv_name := "telco_churn"; mv_version := 2; current_stage := Production |};
         {| mv_name := "other_model"; mv_version := 7; current_stage := Staging |} ];
     calls := [];
     logs := [] |}.

(** * Properties *)

(** ** Comparison of floats *)

Lemma SFcompare_antisym (x y : float) :
  SFcompare y x = CompOpp <$> SFcompare x y.
Proof.
  destruct x as [sx|sx| |sx mx ex], y as [sy|sy| |sy my ey]; simpl; try reflexivity;
    try (destruct sx; reflexivity); try (destruct sy; reflexivity);
    try (destruct sx, sy; reflexivity).
  assert (Hm : Pos.compare_cont Eq my mx = CompOpp (Pos.compare_cont Eq mx my))
    by (rewrite Pos.compare_cont_antisym; reflexivity).
  rewrite (Z.compare_antisym ex ey), Hm.
  destruct sx, sy; simpl; try reflexivity; f_equal;
    destruct (ex ?= ey)%Z; simpl; try reflexivity;
    destruct (Pos.compare_cont Eq mx my); reflexivity.
Qed.

Lemma SFcompare_refl (x : float) :
  SFcompare x x = None \/ SFcompare x x = Some Eq.
Proof.
  destruct x as [s|s| |s m e]; simpl; auto; right.
  - destruct s; reflexivity.
  - rewrite Z.compare_refl, Pos.compare_cont_refl. destruct s; reflexivity.
Qed.

(** [<=] and [>] exclude each other, and so do [>=] and [<]. *)
Lemma py_le_not_gt (x y : float) : py_le x y = true -> py_gt x y = false.
Proof.
  unfold py_le, py_gt, SFleb, SFltb. rewrite (SFcompare_antisym x y).
  destruct (SFcompare x y) as [[]|]; simpl; congruence.
Qed.

Lemma py_gt_not_le (x y : float) : py_gt x y = true -> py_le x y = false.
Proof.
  intros H. destruct (py_le x y) eqn:E; [|reflexivity].
  apply py_le_not_gt in E. congruence.
Qed.

Lemma py_ge_not_lt (x y : float) : py_ge x y = true -> py_lt x y = false.
Proof. apply (py_le_not_gt y x). Qed.

Lemma py_lt_not_ge (x y : float) : py_lt x y = true -> py_ge x y = false.
Proof. apply (py_gt_not_le y x). Qed.

(** Floats that compare equal are [<=] and [>=] each other. *)
Lemma SFeqb_le_ge (x y : float) :
  SFeqb x y = true -> py_le x y = true /\ py_ge x y = true.
Proof.
  unfold py_le, py_ge, SFleb, SFeqb. rewrite (SFcompare_antisym x y).
  destruct (SFcompare x y) as [[]|]; simpl; intuition congruence.
Qed.

(** No float is [<] or [>] itself. *)
Lemma py_lt_irrefl (x : float) : py_lt x x = false.
Proof.
  unfold py_lt, SFltb. destruct (SFcompare_refl x) as [-> | ->]; reflexivity.
Qed.

(** Unless one of them is NaN, two floats are [<=] or [>]. *)
Lemma py_le_or_gt (x y : float) :
  is_nan x = false -> is_nan y = false ->
  py_le x y = true \/ py_gt x y = true.
Proof.
  intros Hx Hy. unfold py_le, py_gt, SFleb, SFltb.
  rewrite (SFcompare_antisym x y).
  assert (H : exists c, SFcompare x y = Some c).
  { destruct x, y; simpl in *; try discriminate; eauto. }
  destruct H as [c ->]. destruct c; simpl; auto.
Qed.

Lemma py_cmp_nan_l (y : float) :
  py_le S754_nan y = false /\ py_gt S754_nan y = false /\
  py_ge S754_nan y = false /\ py_lt S754_nan y = false.
Proof. destruct y; repeat split; reflexivity. Qed.

Lemma py_cmp_nan_r (x : float) :
  py_le x S754_nan = false /\ py_gt x S754_nan = false /\
  py_ge x S754_nan = false /\ py_lt x S754_nan = false.
Proof. destruct x; repeat split; reflexivity. Qed.

Lemma issued_intro {A} (m : M A) (w : World) (cs : list Call) :
  calls (m w).2 = calls w ++ cs -> issued m w = cs.
Proof. unfold issued. intros ->. apply drop_app_length. Qed.

Ltac exec_unfold :=
  cbv [run run_body _run_promotion_logic _get_evaluation_metric
       _batch_inference_by_stage _set_experiment
       mlflow_set_experiment_id mlflow_set_experiment_name mlflow_start_run
       mlflow_end_run active_run_exit mlflow_log_metrics
       ModelInference_run_batch df_toPandas getitem_column
       ModelEvaluation_evaluate client_get_latest_versions
       client_transition_model_version_stage getitem_0 update_tracking
       with_ bind ret raise external info].

Ltac exec_simpl :=
  cbn [fst snd tracking registry calls logs record_call set_tracking
       set_registry option_list option_rect].

Tactic Notation "exec_simpl" "in" hyp(H) :=
  cbn [fst snd tracking registry calls logs record_call set_tracking
       set_registry option_list option_rect] in H.

Lemma lookup_staging (reg : Registry) (name : string) :
  registry_get_latest_versions reg name ["staging"] =
  Ok (option_list (latest_version reg name Staging)).
Proof. simpl. rewrite app_nil_r. reflexivity. Qed.

(** Case analysis on the next collaborator answer or test that decides how
    the execution goes on. *)
Ltac exec_step :=
  match goal with
  | |- context [registry_get_latest_versions ?r ?n ["staging"]] =>
      rewrite (lookup_staging r n)
  | |- context [match option_list (latest_version ?r ?n ?s) with _ => _ end] =>
      let L := fresh "L" in destruct (latest_version r n s) eqn:L
  | |- context [match fault ?P ?c ?w with _ => _ end] =>
      let F := fresh "F" in destruct (fault P c w) eqn:F
  | |- context [match registry_transition ?r ?n ?v ?s ?a with _ => _ end] =>
      let T := fresh "T" in destruct (registry_transition r n v s a) eqn:T
  | |- context [match experiment_id ?s with _ => _ end] =>
      let I := fresh "I" in destruct (experiment_id s) eqn:I
  | |- context [match experiment_path ?s with _ => _ end] =>
      let I := fresh "I" in destruct (experiment_path s) eqn:I
  | |- context [match ?m !! ?k with _ => _ end] =>
      let K := fresh "K" in destruct (m !! k) eqn:K
  | |- context [if ?b then _ else _] =>
      let B := fresh "B" in destruct b eqn:B
  end; exec_simpl.

(** At the end of a path: the result and the final world are known, and the
    calls issued are what was appended to the record. *)
Ltac exec_leaf :=
  intros [= <- <-]; exec_simpl; repeat rewrite <- app_assoc;
  rewrite ?drop_app_length, ?drop_all; cbn [app].

(** ** The registry *)

Lemma stage_of_string_archived : stage_of_string "archived" = Some Archived.
Proof. reflexivity. Qed.

Lemma stage_of_string_production : stage_of_string "production" = Some Production.
Proof. reflexivity. Qed.

Lemma stage_of_decision (d : Decision) :
  stage_of_string (decision_stage d) = Some (target_stage d).
Proof. destruct d; reflexivity. Qed.

Lemma newer_cases (a b : ModelVersion) :
  (newer a b = a /\ (mv_version b <= mv_version a)%N) \/
  (newer a b = b /\ (mv_version a < mv_version b)%N).
Proof.
  unfold newer. destruct (N.ltb_spec (mv_version a) (mv_version b)); auto.
Qed.

Lemma foldl_newer_spec (xs : list ModelVersion) (x : ModelVersion) :
  foldl newer x xs ∈ x :: xs /\
  forall y, y ∈ x :: xs -> (mv_version y <= mv_version (foldl newer x xs))%N.
Proof.
  revert x. induction xs as [|a xs IH]; intros x; simpl.
  - split; [left|]. intros y Hy. apply list_elem_of_singleton in Hy as ->. lia.
  - destruct (IH (newer x a)) as [Hin Hmax]. split.
    + apply elem_of_cons in Hin as [-> | Hin].
      * destruct (newer_cases x a) as [[-> _] | [-> _]];
          [left | right; left].
      * right; right; assumption.
    + intros y Hy.
      assert (Hn : (mv_version x <= mv_version (newer x a))%N /\
                   (mv_version a <= mv_version (newer x a))%N).
      { destruct (newer_cases x a) as [[-> ?] | [-> ?]]; lia. }
      assert (H0 : (mv_version (newer x a) <= mv_version (foldl newer (newer x a) xs))%N)
        by (apply Hmax; left).
      apply elem_of_cons in Hy as [-> | Hy]; [lia|].
      apply elem_of_cons in Hy as [-> | Hy]; [lia|].
      apply Hmax. by right.
Qed.

(** [latest_version] gives a version of the model in the stage, with the
    highest number among them; it gives none exactly when there is none. *)
Lemma latest_version_Some reg name st mv :
  latest_version reg name st = Some mv ->
  mv ∈ reg /\ mv_name mv = name /\ current_stage mv = st /\
  forall mv', mv' ∈ reg -> mv_name mv' = name -> current_stage mv' = st ->
    (mv_version mv' <= mv_version mv)%N.
Proof.
  unfold latest_version, most_recent.
  destruct (filter _ reg) as [|x xs] eqn:E; [discriminate|].
  intros [= <-]. destruct (foldl_newer_spec xs x) as [Hin Hmax].
  rewrite <- E in Hin. apply list_elem_of_filter in Hin as [Hst Hin].
  unfold in_stage in Hst. apply andb_true_iff in Hst as [H1 H2].
  apply bool_decide_eq_true in H1, H2. repeat split; try assumption.
  intros mv' Hin' Hn Hs. apply Hmax. rewrite <- E.
  apply list_elem_of_filter. split; [|assumption].
  unfold in_stage. rewrite !bool_decide_eq_true_2 by assumption. reflexivity.
Qed.

Lemma latest_version_None reg name st :
  latest_version reg name st = None <->
  forall mv, mv ∈ reg -> ~ (mv_name mv = name /\ current_stage mv = st).
Proof.
  unfold latest_version, most_recent. split.
  - destruct (filter _ reg) as [|x xs] eqn:E; [|discriminate].
    intros _ mv Hin [Hn Hs].
    assert (H : mv ∈ filter (fun mv => in_stage name st mv = true) reg).
    { apply list_elem_of_filter. split; [|assumption]. unfold in_stage.
      rewrite !bool_decide_eq_true_2 by assumption. reflexivity. }
    rewrite E in H. by apply elem_of_nil in H.
  - intros H. destruct (filter _ reg) as [|x xs] eqn:E; [reflexivity|].
    assert (Hx : x ∈ filter (fun mv => in_stage name st mv = true) reg)
      by (rewrite E; left).
    apply list_elem_of_filter in Hx as [Hst Hin]. exfalso. apply (H x Hin).
    unfold in_stage in Hst. apply andb_true_iff in Hst as [H1 H2].
    apply bool_decide_eq_true in H1, H2. auto.
Qed.

Lemma is_version_key name version mv :
  is_version name version mv = true <-> version_key mv = (name, version).
Proof.
  unfold is_version, version_key. rewrite andb_true_iff, bool_decide_eq_true, N.eqb_eq.
  split; [intros [-> ->]; reflexivity | intros [= -> ->]; auto].
Qed.

(** The version the lookup returned can be moved: the registry accepts the
    call the module makes for either decision. *)
Lemma registry_transition_decision reg name cand d :
  latest_version reg name Staging = Some cand ->
  registry_transition reg name (mv_version cand) (decision_stage d)
    (decision_archive_existing d) =
  Ok (apply_decision name (mv_version cand) d reg).
Proof.
  intros L. apply latest_version_Some in L as (Hin & Hn & _ & _).
  unfold registry_transition. rewrite stage_of_decision.
  assert (E : existsb (is_version name (mv_version cand)) reg = true).
  { apply existsb_exists. exists cand. split; [by apply list_elem_of_In|].
    apply is_version_key. unfold version_key. by rewrite Hn. }
  rewrite E. destruct d; reflexivity.
Qed.

Lemma well_formed_same_key reg mv mv' :
  well_formed reg -> mv ∈ reg -> mv' ∈ reg ->
  version_key mv = version_key mv' -> mv = mv'.
Proof.
  unfold well_formed. induction reg as [|x reg IH]; intros ND H1 H2 K.
  - by apply elem_of_nil in H1.
  - rewrite fmap_cons in ND. apply NoDup_cons in ND as [Hx ND].
    apply elem_of_cons in H1 as [-> | H1], H2 as [-> | H2]; auto.
    + exfalso. apply Hx. rewrite K. by apply list_elem_of_fmap_2.
    + exfalso. apply Hx. rewrite <- K. by apply list_elem_of_fmap_2.
Qed.

(** Every version moves as the state machine allows when a decision is
    carried out on the latest Staging version. *)
Lemma apply_decision_moves reg name cand d :
  well_formed reg ->
  latest_version reg name Staging = Some cand ->
  Forall2 (version_move d) reg (apply_decision name (mv_version cand) d reg).
Proof.
  intros WF L. apply latest_version_Some in L as (Hin & Hn & Hs & _).
  unfold apply_decision. apply Forall2_fmap_r, Forall_Forall2_diag.
  apply Forall_forall. intros mv Hmv. cbv beta.
  unfold version_move, transition_one. cbv beta delta [compose].
  destruct (is_version name (mv_version cand) mv) eqn:V.
  - apply is_version_key in V.
    assert (mv = cand) as ->.
    { apply (well_formed_same_key reg); auto. rewrite V. unfold version_key.
      by rewrite Hn. }
    split; [reflexivity|]. simpl. rewrite Hs. destruct d; constructor.
  - destruct d; simpl.
    + split; [reflexivity | constructor].
    + destruct (in_stage name Production mv) eqn:S.
      * split; [reflexivity|]. simpl. unfold in_stage in S.
        apply andb_true_iff in S as [_ S]. apply bool_decide_eq_true in S.
        rewrite S. constructor.
      * split; [reflexivity | constructor].
Qed.

(** Versions other than the one moved keep their stage when existing
    versions are not archived. *)
Lemma apply_archive_frame reg name version i mv :
  reg !! i = Some mv -> is_version name version mv = false ->
  apply_decision name version archive_staging reg !! i = Some mv.
Proof.
  intros Hi V. unfold apply_decision. rewrite list_lookup_fmap, Hi. simpl.
  unfold transition_one. by rewrite V.
Qed.

Lemma apply_decision_candidate reg name version d i mv :
  reg !! i = Some mv -> is_version name version mv = true ->
  apply_decision name version d reg !! i = Some (with_stage (target_stage d) mv).
Proof.
  intros Hi V. unfold apply_decision. rewrite list_lookup_fmap, Hi. simpl.
  unfold transition_one. by rewrite V.
Qed.

(** ** The promotion step *)

Lemma no_policy_higher s p :
  py_le s p = false -> py_gt s p = false -> forall d, ~ policy true s p d.
Proof. intros H1 H2 d H. inversion H; congruence. Qed.

Lemma no_policy_lower s p :
  py_ge s p = false -> py_lt s p = false -> forall d, ~ policy false s p d.
Proof. intros H1 H2 d H. inversion H; congruence. Qed.

Lemma registry_transition_latest reg name cand d r :
  latest_version reg name Staging = Some cand ->
  registry_transition reg name (mv_version cand) (decision_stage d)
    (decision_archive_existing d) = r ->
  r = Ok (apply_decision name (mv_version cand) d reg).
Proof. intros L <-. by apply registry_transition_decision. Qed.

(** All the ways [_run_promotion_logic] can go: either only the lookup is
    made and the registry is left as it was, or the lookup gave the latest
    Staging version, one case of the policy applies and the one call that
    carries it out is made. *)
Lemma promotion_outcome P self s p w :
  let name := model_registry_name self in
  let lookup := get_latest_versions name ["staging"] in
  let res := _run_promotion_logic P self s p w in
  (issued (_run_promotion_logic P self s p) w = [lookup] /\
   registry res.2 = registry w /\
   ((exists e, fault P lookup w = Some e /\ res.1 = Raise e) \/
    (fault P lookup w = None /\
     latest_version (registry w) name Staging = None /\
     res.1 = Raise IndexError) \/
    (fault P lookup w = None /\
     (forall d, ~ policy (higher_is_better self) s p d) /\ res.1 = Ok tt)))
  \/
  (exists cand d,
     fault P lookup w = None /\
     latest_version (registry w) name Staging = Some cand /\
     policy (higher_is_better self) s p d /\
     issued (_run_promotion_logic P self s p) w =
       [lookup; decision_call name (mv_version cand) d] /\
     ((exists e, res.1 = Raise e /\ registry res.2 = registry w) \/
      (res.1 = Ok tt /\
       registry res.2 = apply_decision name (mv_version cand) d (registry w)))).
Proof.
  cbv zeta. unfold issued.
  destruct (_run_promotion_logic P self s p w) as [r w'] eqn:E. revert E.
  exec_unfold. exec_simpl. repeat exec_step; exec_leaf.
  all: try match goal with
       | T : registry_transition _ _ (mv_version ?c) "archived" false = _ |- _ =>
           apply (registry_transition_latest _ _ c archive_staging) in T;
           [|assumption]
       | T : registry_transition _ _ (mv_version ?c) "production" true = _ |- _ =>
           apply (registry_transition_latest _ _ c promote_staging) in T;
           [|assumption]
       end; try discriminate.
  all: try match goal with T : Ok _ = Ok _ |- _ => injection T as -> end.
  all: first
    [ left; split; [reflexivity|]; split; [reflexivity|];
      first [ solve [left; eauto]
            | solve [right; left; auto]
            | solve [right; right; split; [reflexivity|]; split;
                     [auto using no_policy_higher, no_policy_lower
                     | reflexivity]] ]
    | right; match goal with L : latest_version _ _ _ = Some ?c |- _ =>
        first [ exists c, archive_staging;
                split; [reflexivity|]; split; [reflexivity|];
                split; [constructor; assumption|]; split; [reflexivity|];
                first [solve [left; eauto] | solve [right; auto]]
              | exists c, promote_staging;
                split; [reflexivity|]; split; [reflexivity|];
                split; [constructor; assumption|]; split; [reflexivity|];
                first [solve [left; eauto] | solve [right; auto]] ]
      end ].
Qed.

(** [_run_promotion_logic] only appends to the record of calls, and leaves
    the tracking store alone. *)
Lemma promotion_extends P self s p w :
  calls (_run_promotion_logic P self s p w).2 =
    calls w ++ issued (_run_promotion_logic P self s p) w /\
  tracking (_run_promotion_logic P self s p w).2 = tracking w.
Proof.
  unfold issued.
  destruct (_run_promotion_logic P self s p w) as [r w'] eqn:E. revert E.
  exec_unfold. exec_simpl. repeat exec_step; exec_leaf;
    repeat rewrite <- app_assoc; split; reflexivity.
Qed.

(** ** The body of the run *)

Ltac exec_unfold_body :=
  cbv [run_body _get_evaluation_metric _batch_inference_by_stage
       mlflow_log_metrics ModelInference_run_batch df_toPandas getitem_column
       ModelEvaluation_evaluate update_tracking bind ret raise external info].

(** All the ways the body of the [with] statement can go: it raises before
    the promotion step, having made no call to the registry, or both metrics
    were found in the Evaluator's output and it ends with
    [_run_promotion_logic]. *)
Lemma run_body_outcome P self w :
  let res := run_body P self w in
  let metric := comparison_metric self in
  calls res.2 = calls w ++ issued (run_body P self) w /\
  active_runs (tracking res.2) = active_runs (tracking w) /\
  ended_runs (tracking res.2) = ended_runs (tracking w) /\
  ((exists e, res.1 = Raise e /\ registry res.2 = registry w /\
      Forall (fun c => registry_call c = false) (issued (run_body P self) w))
   \/
   (exists df_s df_p yt ys yt' ys' vs vp w0,
      evaluation P yt ys "staging_" !! ("staging_" +:+ metric) = Some vs /\
      evaluation P yt' ys' "production_" !! ("production_" +:+ metric) = Some vp /\
      registry w0 = registry w /\
      issued (run_body P self) w =
        [run_batch (_get_model_uri_by_stage self "staging") (reference_data self);
         run_batch (_get_model_uri_by_stage self "production") (reference_data self);
         toPandas df_s; toPandas df_p;
         evaluate yt ys "staging_";
         log_metrics (evaluation P yt ys "staging_");
         evaluate yt' ys' "production_";
         log_metrics (evaluation P yt' ys' "production_")]
        ++ issued (_run_promotion_logic P self vs vp) w0 /\
      res = _run_promotion_logic P self vs vp w0)).
Proof.
  cbv zeta. unfold issued at 1 2 3.
  destruct (run_body P self w) as [r w'] eqn:E. revert E.
  exec_unfold_body. exec_simpl. repeat exec_step.
  all: first
    [ exec_leaf; repeat rewrite <- app_assoc;
      split; [reflexivity|]; split; [reflexivity|]; split; [reflexivity|];
      left; eexists; split; [reflexivity|]; split; [reflexivity|];
      repeat constructor
    | intros E ].
  match type of E with
  | _run_promotion_logic _ _ ?vs ?vp ?W0 = _ =>
      destruct (promotion_extends P self vs vp W0) as [Hc Ht];
      set (X := issued (_run_promotion_logic P self vs vp) W0) in *;
      rewrite E in Hc, Ht; cbn [snd] in Hc, Ht; exec_simpl in Hc;
      exec_simpl in Ht; cbn [snd]; rewrite Hc, Ht;
      repeat rewrite <- app_assoc; rewrite drop_app_length;
      split; [reflexivity|]; split; [reflexivity|]; split; [reflexivity|];
      right; do 8 eexists; exists W0;
      split; [eassumption|]; split; [eassumption|]; split; [reflexivity|];
      split; [reflexivity|]; symmetry; exact E
  end.
Qed.

(** ** The run scope *)

(** The [with] statement of [run], path by path: the run is started; if that
    succeeds the body runs, and whatever the body does, [end_run] is called
    with the status that tells how the body ended; the result of the body is
    the result of the statement unless [end_run] itself raises. *)
Lemma with_run_outcome P self w1 :
  let scoped := with_ (mlflow_start_run P "Model Comparison")
                  (active_run_exit P) (run_body P self) in
  let c := start_run "Model Comparison" in
  match fault P c w1 with
  | Some e => scoped w1 = (Raise e, record_call c w1)
  | None =>
      let w2 := set_tracking
                  (tracking_start_run "Model Comparison" (tracking w1))
                  (record_call c w1) in
      let body := run_body P self w2 in
      let status := match body.1 with Ok _ => FINISHED | Raise _ => FAILED end in
      match fault P (end_run status) body.2 with
      | Some e => scoped w1 = (Raise e, record_call (end_run status) body.2)
      | None =>
          scoped w1 =
          (body.1,
           set_tracking (tracking_end_run status (tracking body.2))
             (record_call (end_run status) body.2))
      end
  end.
Proof.
  cbv zeta.
  cbv [with_ mlflow_start_run mlflow_end_run active_run_exit update_tracking
       bind ret external].
  destruct (fault P (start_run "Model Comparison") w1); [reflexivity|].
  exec_simpl.
  destruct (run_body P self _) as [[[]|e] wb]; cbn [fst snd];
    destruct (fault P (end_run _) wb); reflexivity.
Qed.

(** [_set_experiment], path by path. *)
Lemma set_experiment_outcome P self w :
  _set_experiment P self w =
  match experiment_id self, experiment_path self with
  | Some i, _ =>
      match fault P (set_experiment_by_id i) w with
      | Some e => (Raise e, record_call (set_experiment_by_id i) w)
      | None =>
          (Ok tt,
           set_tracking (tracking_set_experiment (by_id i) (tracking w))
             (record_call (set_experiment_by_id i) w))
      end
  | None, Some p =>
      match fault P (set_experiment_by_name p) w with
      | Some e => (Raise e, record_call (set_experiment_by_name p) w)
      | None =>
          (Ok tt,
           set_tracking (tracking_set_experiment (by_name p) (tracking w))
             (record_call (set_experiment_by_name p) w))
      end
  | None, None =>
      (Raise (RuntimeError
         "MLflow experiment_id or experiment_path must be set in mlflow_params"),
       w)
  end.
Proof.
  cbv [_set_experiment mlflow_set_experiment_id mlflow_set_experiment_name
       update_tracking external raise].
  destruct (experiment_id self); [|destruct (experiment_path self)];
    try reflexivity; exec_simpl; destruct (fault P _ w); reflexivity.
Qed.

Lemma set_experiment_extends P self w :
  calls (_set_experiment P self w).2 =
    calls w ++ issued (_set_experiment P self) w /\
  registry (_set_experiment P self w).2 = registry w /\
  active_runs (tracking (_set_experiment P self w).2) = active_runs (tracking w) /\
  ended_runs (tracking (_set_experiment P self w).2) = ended_runs (tracking w) /\
  length (issued (_set_experiment P self) w) <= 1 /\
  Forall (fun c => registry_call c = false) (issued (_set_experiment P self) w).
Proof.
  unfold issued. rewrite set_experiment_outcome.
  destruct (experiment_id self); [|destruct (experiment_path self)];
    try destruct (fault P _ w); exec_simpl;
    rewrite ?drop_app_length, ?drop_all, ?app_nil_r;
    repeat split; try reflexivity; simpl; try lia; repeat constructor.
Qed.

Lemma set_experiment_ok P self w w1 :
  _set_experiment P self w = (Ok tt, w1) ->
  exists c0, registry_call c0 = false /\ calls w1 = calls w ++ [c0] /\
             registry w1 = registry w.
Proof.
  rewrite set_experiment_outcome.
  destruct (experiment_id self); [|destruct (experiment_path self)];
    try destruct (fault P _ w); intros [= <-]; eexists;
    (split; [|split; reflexivity]); reflexivity.
Qed.

Lemma set_experiment_raise P self w e w1 :
  _set_experiment P self w = (Raise e, w1) ->
  registry w1 = registry w /\
  exists cs, calls w1 = calls w ++ cs /\
             Forall (fun c => registry_call c = false) cs.
Proof.
  rewrite set_experiment_outcome.
  destruct (experiment_id self); [|destruct (experiment_path self)];
    try destruct (fault P _ w); intros [= <- <-]; (split; [reflexivity|]);
    first [ exists []; split; [symmetry; apply app_nil_r | constructor]
          | eexists; split; [reflexivity | repeat constructor] ].
Qed.

(** ** The whole run *)

Lemma run_unfold P self w :
  run P self w =
  match _set_experiment P self w with
  | (Ok _, w1) =>
      with_ (mlflow_start_run P "Model Comparison") (active_run_exit P)
        (run_body P self) w1
  | (Raise e, w1) => (Raise e, w1)
  end.
Proof. reflexivity. Qed.

(** All the ways [run] can go, as far as the registry is concerned: it
    raises without having called the registry, or it reaches the promotion
    step with both metrics, and the run scope is closed after that step. *)
Lemma run_paths P self w :
  let res := run P self w in
  let metric := comparison_metric self in
  (exists e, res.1 = Raise e /\ registry res.2 = registry w /\
     Forall (fun c => registry_call c = false) (issued (run P self) w))
  \/
  (exists c0 df_s df_p yt ys yt' ys' vs vp w0 status,
     evaluation P yt ys "staging_" !! ("staging_" +:+ metric) = Some vs /\
     evaluation P yt' ys' "production_" !! ("production_" +:+ metric) = Some vp /\
     registry w0 = registry w /\
     registry_call c0 = false /\
     issued (run P self) w =
       [c0; start_run "Model Comparison";
        run_batch (_get_model_uri_by_stage self "staging") (reference_data self);
        run_batch (_get_model_uri_by_stage self "production") (reference_data self);
        toPandas df_s; toPandas df_p;
        evaluate yt ys "staging_";
        log_metrics (evaluation P yt ys "staging_");
        evaluate yt' ys' "production_";
        log_metrics (evaluation P yt' ys' "production_")]
       ++ issued (_run_promotion_logic P self vs vp) w0 ++ [end_run status] /\
     registry res.2 = registry (_run_promotion_logic P self vs vp w0).2).
Proof.
  cbv zeta. unfold issued at 1 2. rewrite run_unfold.
  destruct (_set_experiment P self w) as [[[]|e] w1] eqn:E1.
  2:{ left. apply set_experiment_raise in E1 as (Hr & cs & Hc & Hf).
      exists e. cbn [fst snd]. rewrite Hc, drop_app_length. auto. }
  apply set_experiment_ok in E1 as (c0 & Hc0 & Hc1 & Hr1).
  pose proof (with_run_outcome P self w1) as HW. cbv zeta in HW.
  destruct (fault P (start_run "Model Comparison") w1) eqn:F.
  { left. rewrite HW. eexists. cbn [fst snd]. exec_simpl.
    rewrite Hc1, <- app_assoc, drop_app_length.
    split; [reflexivity|]. split; [assumption|].
    repeat constructor. assumption. }
  set (w2 := set_tracking _ _) in HW.
  assert (Hc2 : calls w2 = calls w ++ [c0; start_run "Model Comparison"]).
  { unfold w2. exec_simpl. rewrite Hc1, <- app_assoc. reflexivity. }
  assert (Hr2 : registry w2 = registry w) by (unfold w2; exec_simpl; assumption).
  destruct (run_body_outcome P self w2) as (Hcb & _ & _ & Hb).
  set (X := issued (run_body P self) w2) in *.
  set (body := run_body P self w2) in *.
  set (status := match body.1 with Ok _ => FINISHED | Raise _ => FAILED end) in *.
  assert (Hcalls : forall r w',
    with_ (mlflow_start_run P "Model Comparison") (active_run_exit P)
      (run_body P self) w1 = (r, w') ->
    calls w' = calls w ++ [c0; start_run "Model Comparison"] ++ X ++ [end_run status] /\
    registry w' = registry body.2 /\
    (body.1 = r \/ exists e, r = Raise e)).
  { intros r w' Hw. destruct (fault P (end_run status) body.2);
      rewrite HW in Hw; injection Hw as <- <-; exec_simpl;
      rewrite Hcb, Hc2, <- !app_assoc; eauto. }
  destruct (with_ _ _ _ w1) as [r w'] eqn:EW.
  destruct (Hcalls r w' eq_refl) as (Hc & Hr & Hres). clear Hcalls HW.
  cbn [fst snd]. rewrite Hc, drop_app_length.
  destruct Hb as [(e & He & Hrb & Hf) | Hb].
  - left.
    assert (Hraise : exists e0, r = Raise e0).
    { destruct Hres as [<- | Hres]; eauto. }
    destruct Hraise as [e0 ->]. exists e0.
    split; [reflexivity|]. split; [congruence|].
    repeat first [apply Forall_cons; split; [assumption || reflexivity|]
                 | apply Forall_app; split; [assumption|]
                 | apply Forall_nil_2].
  - right.
    destruct Hb as (df_s & df_p & yt & ys & yt' & ys' & vs & vp & w0 &
                    Ks & Kp & Hr0 & HX & Hbody).
    exists c0, df_s, df_p, yt, ys, yt', ys', vs, vp, w0, status.
    rewrite HX. rewrite Hr, Hbody.
    repeat split; try assumption; try congruence.
Qed.

(** ** The policy of the specification *)

Lemma policy_deterministic flag s p d d' :
  policy flag s p d -> policy flag s p d' -> d = d'.
Proof.
  intros H H'. destruct H; inversion H'; subst; try reflexivity;
    match goal with
    | A : py_le ?x ?y = true, B : py_gt ?x ?y = true |- _ =>
        apply py_le_not_gt in A; congruence
    | A : py_ge ?x ?y = true, B : py_lt ?x ?y = true |- _ =>
        apply py_ge_not_lt in A; congruence
    end.
Qed.

Lemma policy_tie flag s p :
  SFeqb s p = true -> policy flag s p archive_staging.
Proof.
  intros H. apply SFeqb_le_ge in H as [H1 H2]. destruct flag; by constructor.
Qed.

Lemma policy_same_value flag s d : policy flag s s d -> d = archive_staging.
Proof.
  intros H. inversion H; subst; try reflexivity;
    match goal with
    | A : py_gt ?x ?x = true |- _ =>
        unfold py_gt in A; fold (py_lt x x) in A; rewrite py_lt_irrefl in A
    | A : py_lt ?x ?x = true |- _ => rewrite py_lt_irrefl in A
    end; discriminate.
Qed.

Lemma policy_defined flag s p :
  is_nan s = false -> is_nan p = false -> exists d, policy flag s p d.
Proof.
  intros Hs Hp. destruct flag.
  - destruct (py_le_or_gt s p Hs Hp); eexists; by constructor.
  - destruct (py_le_or_gt p s Hp Hs); eexists; by constructor.
Qed.

Lemma policy_nan flag s p d :
  is_nan s = true \/ is_nan p = true -> ~ policy flag s p d.
Proof.
  intros [Hn | Hn] H.
  - destruct s; try discriminate.
    destruct (py_cmp_nan_l p) as (? & ? & ? & ?). inversion H; congruence.
  - destruct p; try discriminate.
    destruct (py_cmp_nan_r s) as (? & ? & ? & ?). inversion H; congruence.
Qed.

Lemma transitions_decision_call name v d :
  transitions [get_latest_versions name ["staging"]; decision_call name v d] =
  [(name, v, decision_stage d, decision_archive_existing d)].
Proof. reflexivity. Qed.

(** ** The promotion decision *)

(** The transitions issued by the promotion step, and the registry it leaves,
    for a world in which the lookup answers. *)
Lemma promotion_decided P self s p w cand d :
  fault P (get_latest_versions (model_registry_name self) ["staging"]) w = None ->
  latest_version (registry w) (model_registry_name self) Staging = Some cand ->
  policy (higher_is_better self) s p d ->
  transitions (issued (_run_promotion_logic P self s p) w) =
    [(model_registry_name self, mv_version cand, decision_stage d,
      decision_archive_existing d)] /\
  ((_run_promotion_logic P self s p w).1 = Ok tt ->
   registry (_run_promotion_logic P self s p w).2 =
     apply_decision (model_registry_name self) (mv_version cand) d (registry w)).
Proof.
  intros F L D.
  destruct (promotion_outcome P self s p w)
    as [(_ & _ & [(e & Fe & _) | [(_ & Ln & _) | (_ & Hno & _)]])
       | (cand' & d' & _ & L' & D' & Hi & Hres)].
  - congruence.
  - congruence.
  - destruct (Hno d D).
  - rewrite L in L'. injection L' as <-.
    rewrite (policy_deterministic _ _ _ _ _ D' D) in *.
    rewrite Hi. split; [reflexivity|].
    intros Hok. destruct Hres as [(e & He & _) | [_ Hr]]; [congruence|assumption].
Qed.

(** C1: the promotion step follows the four-case policy.  In a world where
    the lookup answers with the latest Staging version [cand]: with
    higher_is_better, staging <= production issues the one transition of
    [cand] to "archived" and staging > production the one transition of
    [cand] to "production" with archive_existing_versions; without
    higher_is_better, staging >= production archives and staging <
    production promotes.  Metrics that compare equal archive, and a metric
    compared with itself never promotes.  When the call succeeds the
    registry is the old one with that decision carried out. *)
Theorem promotion_follows_policy P self s p w cand :
  let name := model_registry_name self in
  let ts := transitions (issued (_run_promotion_logic P self s p) w) in
  let archive := [(name, mv_version cand, "archived", false)] in
  let promote := [(name, mv_version cand, "production", true)] in
  fault P (get_latest_versions name ["staging"]) w = None ->
  latest_version (registry w) name Staging = Some cand ->
  (higher_is_better self = true -> py_le s p = true -> ts = archive) /\
  (higher_is_better self = true -> py_gt s p = true -> ts = promote) /\
  (higher_is_better self = false -> py_ge s p = true -> ts = archive) /\
  (higher_is_better self = false -> py_lt s p = true -> ts = promote) /\
  (SFeqb s p = true -> ts = archive) /\
  (s = p -> ts <> promote) /\
  (forall d, policy (higher_is_better self) s p d ->
     (_run_promotion_logic P self s p w).1 = Ok tt ->
     registry (_run_promotion_logic P self s p w).2 =
       apply_decision name (mv_version cand) d (registry w)).
Proof.
  intros name ts archive promote F L.
  assert (H : forall d, policy (higher_is_better self) s p d ->
            ts = [(name, mv_version cand, decision_stage d,
                   decision_archive_existing d)]).
  { intros d D. apply (promotion_decided P self s p w cand d F L D). }
  repeat split.
  - intros Hf C. rewrite Hf in H. apply (H archive_staging). by constructor.
  - intros Hf C. rewrite Hf in H. apply (H promote_staging). by constructor.
  - intros Hf C. rewrite Hf in H. apply (H archive_staging). by constructor.
  - intros Hf C. rewrite Hf in H. apply (H promote_staging). by constructor.
  - intros C. apply (H archive_staging). by apply policy_tie.
  - intros E Hp. subst p.
    destruct (promotion_outcome P self s s w)
      as [(Hi & _) | (cand' & d' & _ & L' & D' & Hi & _)].
    + unfold ts in Hp. rewrite Hi in Hp. discriminate.
    + apply policy_same_value in D' as ->.
      unfold ts in Hp. rewrite Hi in Hp. discriminate.
  - intros d D. apply (promotion_decided P self s p w cand d F L D).
Qed.

Lemma promotion_follows_policy_witness :
  let P := example_platform metric_0_85 metric_0_80 in
  let self := example_deployment "auc" true in
  let cand := {| mv_name := "telco_churn"; mv_version := 4;
                 current_stage := Staging |} in
  fault P (get_latest_versions "telco_churn" ["staging"]) example_world = None /\
  latest_version example_registry "telco_churn" Staging = Some cand /\
  py_gt metric_0_85 metric_0_80 = true /\
  transitions
    (issued (_run_promotion_logic P self metric_0_85 metric_0_80) example_world) =
  [("telco_churn", 4%N, "production", true)].
Proof.
  cbv zeta. split; [reflexivity|]. split; [reflexivity|]. split; [reflexivity|].
  destruct (promotion_follows_policy
              (example_platform metric_0_85 metric_0_80)
              (example_deployment "auc" true) metric_0_85 metric_0_80
              example_world
              {| mv_name := "telco_churn"; mv_version := 4;
                 current_stage := Staging |} eq_refl eq_refl)
    as (_ & Hpromote & _).
  exact (Hpromote eq_refl eq_refl).
Defined.

(** C2 (the code at a NaN metric): when either metric is NaN no case of the
    policy applies, and the promotion step issues no transition at all: it
    returns normally whenever the lookup answers with a version, and the
    registry is left as it was, the candidate still in Staging. *)
Theorem promotion_undecided_on_nan P self s p w :
  is_nan s = true \/ is_nan p = true ->
  (forall d, ~ policy (higher_is_better self) s p d) /\
  transitions (issued (_run_promotion_logic P self s p) w) = [] /\
  registry (_run_promotion_logic P self s p w).2 = registry w /\
  (forall cand,
     fault P (get_latest_versions (model_registry_name self) ["staging"]) w = None ->
     latest_version (registry w) (model_registry_name self) Staging = Some cand ->
     (_run_promotion_logic P self s p w).1 = Ok tt).
Proof.
  intros Hn.
  assert (Hno : forall d, ~ policy (higher_is_better self) s p d)
    by (intros d; by apply policy_nan).
  split; [exact Hno|].
  destruct (promotion_outcome P self s p w)
    as [(Hi & Hr & Hres) | (cand' & d' & _ & _ & D' & _)];
    [|destruct (Hno d' D')].
  rewrite Hi. split; [reflexivity|]. split; [assumption|].
  intros cand F L.
  destruct Hres as [(e & Fe & _) | [(_ & Ln & _) | (_ & _ & Hok)]];
    congruence.
Qed.

Lemma promotion_undecided_on_nan_witness :
  let P := example_platform S754_nan metric_0_80 in
  let self := example_deployment "auc" true in
  is_nan S754_nan = true /\
  transitions
    (issued (_run_promotion_logic P self S754_nan metric_0_80) example_world) = [] /\
  (_run_promotion_logic P self S754_nan metric_0_80 example_world).1 = Ok tt /\
  registry (_run_promotion_logic P self S754_nan metric_0_80 example_world).2 =
    example_registry.
Proof.
  cbv zeta. split; [reflexivity|].
  destruct (promotion_undecided_on_nan
              (example_platform S754_nan metric_0_80)
              (example_deployment "auc" true) S754_nan metric_0_80
              example_world (or_introl eq_refl)) as (_ & Ht & Hr & Hok).
  split; [exact Ht|]. split; [|exact Hr].
  apply (Hok {| mv_name := "telco_churn"; mv_version := 4;
                current_stage := Staging |}); reflexivity.
Defined.

(** The rest of C2 holds of the code: what the promotion step issues is a
    function of the flag and the two metrics, up to the name and the version
    the lookup gave. *)
Lemma promotion_depends_on_triple_only P P' self self' s p w w' cand cand' :
  higher_is_better self = higher_is_better self' ->
  fault P (get_latest_versions (model_registry_name self) ["staging"]) w = None ->
  fault P' (get_latest_versions (model_registry_name self') ["staging"]) w' = None ->
  latest_version (registry w) (model_registry_name self) Staging = Some cand ->
  latest_version (registry w') (model_registry_name self') Staging = Some cand' ->
  (fun t => (t.1.2, t.2)) <$>
    transitions (issued (_run_promotion_logic P self s p) w) =
  (fun t => (t.1.2, t.2)) <$>
    transitions (issued (_run_promotion_logic P' self' s p) w').
Proof.
  intros Hf F F' L L'.
  destruct (promotion_outcome P self s p w)
    as [(Hi & _ & [(e & Fe & _) | [(_ & Ln & _) | (_ & Hno & _)]])
       | (c & d & _ & Lc & D & Hi & _)]; try congruence;
  destruct (promotion_outcome P' self' s p w')
    as [(Hi' & _ & [(e' & Fe' & _) | [(_ & Ln' & _) | (_ & Hno' & _)]])
       | (c' & d' & _ & Lc' & D' & Hi' & _)]; try congruence;
  rewrite Hi, Hi'; try reflexivity.
  - rewrite <- Hf in D'. destruct (Hno d' D').
  - rewrite Hf in D. destruct (Hno' d D).
  - rewrite Hf in D. rewrite (policy_deterministic _ _ _ _ _ D D').
    reflexivity.
Qed.

(** ** Selecting the experiment *)

(** C3: [_set_experiment] selects the experiment by [experiment_id] when it
    is set, else by [experiment_path] when it is set: that one call to the
    tracking store is all it does, and when the call does not raise the
    experiment is the active one.  With neither set it raises RuntimeError
    and so does [run], in the world it started in: no call to any
    collaborator has been made and nothing has been logged. *)
Theorem experiment_selection P self w :
  let sel := _set_experiment P self w in
  match experiment_id self, experiment_path self with
  | Some i, _ =>
      issued (_set_experiment P self) w = [set_experiment_by_id i] /\
      (fault P (set_experiment_by_id i) w = None ->
       sel.1 = Ok tt /\
       active_experiment (tracking sel.2) = Some (by_id i))
  | None, Some path =>
      issued (_set_experiment P self) w = [set_experiment_by_name path] /\
      (fault P (set_experiment_by_name path) w = None ->
       sel.1 = Ok tt /\
       active_experiment (tracking sel.2) = Some (by_name path))
  | None, None =>
      exists msg,
        sel = (Raise (RuntimeError msg), w) /\
        run P self w = (Raise (RuntimeError msg), w) /\
        issued (run P self) w = []
  end.
Proof.
  cbv zeta. unfold issued. rewrite run_unfold, set_experiment_outcome.
  destruct (experiment_id self) as [i|]; [|destruct (experiment_path self) as [path|]].
  - destruct (fault P (set_experiment_by_id i) w); exec_simpl;
      rewrite drop_app_length; split; try reflexivity;
      intros [=]; split; reflexivity.
  - destruct (fault P (set_experiment_by_name path) w); exec_simpl;
      rewrite drop_app_length; split; try reflexivity;
      intros [=]; split; reflexivity.
  - eexists. split; [reflexivity|]. split; [reflexivity|].
    exec_simpl. apply drop_all.
Qed.

Lemma experiment_selection_witness :
  let P := example_platform metric_0_85 metric_0_80 in
  let self := example_deployment "auc" true in
  fault P (set_experiment_by_id 42) example_world = None /\
  (_set_experiment P self example_world).1 = Ok tt /\
  active_experiment (tracking (_set_experiment P self example_world).2) =
    Some (by_id 42).
Proof.
  cbv zeta. split; [reflexivity|].
  exact (proj2 (experiment_selection
                  (example_platform metric_0_85 metric_0_80)
                  (example_deployment "auc" true) example_world) eq_refl).
Defined.

(** C10: with both [experiment_id] and [experiment_path] set,
    [_set_experiment] does exactly what the call selecting by id does: it
    raises nothing of its own, it succeeds whenever that call does, and
    neither it nor the whole run depends on the value of
    [experiment_path]. *)
Theorem experiment_id_takes_precedence P name data label metric flag i path w :
  let self := {| model_registry_name := name; reference_data := data;
                 label_col := label; comparison_metric := metric;
                 higher_is_better := flag; experiment_id := Some i;
                 experiment_path := Some path |} in
  let other path' := {| model_registry_name := name; reference_data := data;
                        label_col := label; comparison_metric := metric;
                        higher_is_better := flag; experiment_id := Some i;
                        experiment_path := path' |} in
  _set_experiment P self w = mlflow_set_experiment_id P i w /\
  issued (_set_experiment P self) w = [set_experiment_by_id i] /\
  (fault P (set_experiment_by_id i) w = None ->
   (_set_experiment P self w).1 = Ok tt /\
   active_experiment (tracking (_set_experiment P self w).2) = Some (by_id i)) /\
  (forall path', _set_experiment P (other path') w = _set_experiment P self w) /\
  (forall path', run P (other path') w = run P self w).
Proof.
  cbv zeta. split; [reflexivity|]. split; [|split; [|split]].
  - unfold issued. rewrite set_experiment_outcome. cbn [experiment_id].
    destruct (fault P (set_experiment_by_id i) w); exec_simpl;
      apply drop_app_length.
  - rewrite set_experiment_outcome. cbn [experiment_id].
    intros ->. split; reflexivity.
  - reflexivity.
  - reflexivity.
Qed.

Lemma experiment_id_takes_precedence_witness :
  let P := example_platform metric_0_85 metric_0_80 in
  let self := {| model_registry_name := "telco_churn";
                 reference_data := "telco_churn_labels";
                 label_col := "churn"; comparison_metric := "auc";
                 higher_is_better := true; experiment_id := Some 42%Z;
                 experiment_path := Some "/Shared/telco_churn" |} in
  fault P (set_experiment_by_id 42) example_world = None /\
  (_set_experiment P self example_world).1 = Ok tt /\
  active_experiment (tracking (_set_experiment P self example_world).2) =
    Some (by_id 42).
Proof.
  cbv zeta. split; [reflexivity|].
  destruct (experiment_id_takes_precedence
              (example_platform metric_0_85 metric_0_80)
              "telco_churn" "telco_churn_labels" "churn" "auc" true 42
              "/Shared/telco_churn" example_world) as (_ & _ & Hok & _).
  exact (Hok eq_refl).
Defined.

(** ** Calls that leave the registry alone *)

Lemma no_registry_call_no_transition (cs : list Call) :
  Forall (fun c => registry_call c = false) cs -> transitions cs = [].
Proof.
  induction 1 as [|c cs Hc _ IH]; [reflexivity|].
  unfold transitions in *. cbn [omap list_omap]. rewrite IH.
  destruct c; try reflexivity; discriminate.
Qed.

(** ** Order and number of transitions in a run *)

Lemma transition_in_transitions cs n v st ae :
  transition_model_version_stage n v st ae ∈ cs <->
  (n, v, st, ae) ∈ transitions cs.
Proof.
  unfold transitions. rewrite list_elem_of_omap. split.
  - intros H. eexists. split; [exact H | reflexivity].
  - intros (c & Hc & E). destruct c; try discriminate.
    injection E as -> -> -> ->. exact Hc.
Qed.

(** C6: a run issues at most one stage transition.  When it issues one, the
    calls of the run are: calls that are no transition, among them the
    evaluation of the Staging and of the Production predictions, whose
    outputs hold the two metrics; then the transition; then only the
    [end_run] that closes the run scope. *)
Theorem transition_once_after_metrics_and_last P self w :
  let cs := issued (run P self) w in
  let metric := comparison_metric self in
  length (transitions cs) <= 1 /\
  forall n v st ae,
    transition_model_version_stage n v st ae ∈ cs ->
    exists pre yt ys yt' ys' vs vp status,
      cs = pre ++ [transition_model_version_stage n v st ae; end_run status] /\
      transitions pre = [] /\
      evaluate yt ys "staging_" ∈ pre /\
      evaluation P yt ys "staging_" !! ("staging_" +:+ metric) = Some vs /\
      evaluate yt' ys' "production_" ∈ pre /\
      evaluation P yt' ys' "production_" !! ("production_" +:+ metric) = Some vp.
Proof.
  cbv zeta.
  destruct (run_paths P self w)
    as [(e & _ & _ & Hf)
       | (c0 & df_s & df_p & yt & ys & yt' & ys' & vs & vp & w0 & status &
          Ks & Kp & _ & Hc0 & Hi & _)].
  - pose proof (no_registry_call_no_transition _ Hf) as Ht. split.
    + rewrite Ht. simpl. lia.
    + intros n v st ae Hin. apply transition_in_transitions in Hin.
      rewrite Ht in Hin. by apply elem_of_nil in Hin.
  - assert (Ht0 : transitions [c0] = []).
    { apply no_registry_call_no_transition. repeat constructor. exact Hc0. }
    assert (Hc0' : forall n v st ae,
              c0 <> transition_model_version_stage n v st ae).
    { intros n v st ae ->. discriminate. }
    rewrite Hi. clear Hi.
    destruct (promotion_outcome P self vs vp w0)
      as [(Hp & _) | (cand & d & _ & _ & _ & Hp & _)]; rewrite Hp; clear Hp.
    + split.
      * destruct c0; try discriminate; simpl; lia.
      * intros n v st ae Hin. exfalso.
        repeat (apply elem_of_cons in Hin as [Hin | Hin];
                [first [discriminate Hin | by apply (Hc0' n v st ae)]|]).
        by apply elem_of_nil in Hin.
    + split.
      * destruct c0; try discriminate; simpl; lia.
      * intros n v st ae Hin.
        assert (Hd : decision_call (model_registry_name self)
                       (mv_version cand) d =
                     transition_model_version_stage n v st ae).
        { repeat (apply elem_of_cons in Hin as [Hin | Hin];
                  [first [discriminate Hin
                         | exfalso; by apply (Hc0' n v st ae)
                         | symmetry; exact Hin]|]).
          by apply elem_of_nil in Hin. }
        rewrite Hd.
        exists
          [c0; start_run "Model Comparison";
           run_batch (_get_model_uri_by_stage self "staging")
             (reference_data self);
           run_batch (_get_model_uri_by_stage self "production")
             (reference_data self);
           toPandas df_s; toPandas df_p; evaluate yt ys "staging_";
           log_metrics (evaluation P yt ys "staging_");
           evaluate yt' ys' "production_";
           log_metrics (evaluation P yt' ys' "production_");
           get_latest_versions (model_registry_name self) ["staging"]],
          yt, ys, yt', ys', vs, vp, status.
        split; [reflexivity|].
        split; [destruct c0; try discriminate; reflexivity|].
        split; [do 6 right; left|]. split; [exact Ks|].
        split; [do 8 right; left | exact Kp].
Qed.

Lemma transition_once_after_metrics_and_last_witness :
  let P := example_platform metric_0_85 metric_0_80 in
  let self := example_deployment "auc" true in
  transition_model_version_stage "telco_churn" 4 "production" true
    ∈ issued (run P self) example_world /\
  exists pre status,
    issued (run P self) example_world =
    pre ++ [transition_model_version_stage "telco_churn" 4 "production" true;
            end_run status] /\
    transitions pre = [].
Proof.
  cbv zeta.
  assert (Hin : transition_model_version_stage "telco_churn" 4 "production" true
                ∈ issued (run (example_platform metric_0_85 metric_0_80)
                            (example_deployment "auc" true)) example_world)
    by (vm_compute; do 11 right; left).
  split; [exact Hin|].
  destruct (proj2 (transition_once_after_metrics_and_last
                     (example_platform metric_0_85 metric_0_80)
                     (example_deployment "auc" true) example_world)
              _ _ _ _ Hin)
    as (pre & _ & _ & _ & _ & _ & _ & status & Hcs & Hpre & _).
  exists pre, status. split; [exact Hcs | exact Hpre].
Defined.

(** ** The state machine of a run *)

Lemma version_move_refl d mv : version_move d mv mv.
Proof. split; [reflexivity | constructor]. Qed.

Lemma version_moves_refl d (reg : Registry) : Forall2 (version_move d) reg reg.
Proof. apply Forall_Forall2_diag, Forall_forall. intros. apply version_move_refl. Qed.

(** C7: the stage transitions a run issues are none, or the one transition
    of the latest Staging version to "archived" (existing versions not
    archived), or the one transition of that version to "production" with
    archive_existing_versions; never both, and never one into "staging".
    In a registry where a number identifies one version, the versions after
    the run are the versions before it, each in the stage it was in or moved
    Staging to Archived (the candidate, on archive), Staging to Production
    (the candidate, on promotion) or Production to Archived (on promotion);
    so a version in Staging after the run was in Staging before it. *)
Theorem run_stage_transitions P self w :
  let name := model_registry_name self in
  let ts := transitions (issued (run P self) w) in
  let after := registry (run P self w).2 in
  (ts = [] \/
   exists cand,
     latest_version (registry w) name Staging = Some cand /\
     (ts = [(name, mv_version cand, "archived", false)] \/
      ts = [(name, mv_version cand, "production", true)])) /\
  (forall n v st ae, (n, v, st, ae) ∈ ts -> st <> "staging") /\
  (well_formed (registry w) ->
   (exists d, Forall2 (version_move d) (registry w) after) /\
   (forall i mv', after !! i = Some mv' -> current_stage mv' = Staging ->
      registry w !! i = Some mv')).
Proof.
  cbv zeta.
  assert (H : (transitions (issued (run P self) w) = [] /\
               registry (run P self w).2 = registry w) \/
              exists cand d,
                latest_version (registry w) (model_registry_name self) Staging
                  = Some cand /\
                transitions (issued (run P self) w) =
                  [(model_registry_name self, mv_version cand,
                    decision_stage d, decision_archive_existing d)] /\
                (registry (run P self w).2 = registry w \/
                 registry (run P self w).2 =
                   apply_decision (model_registry_name self)
                     (mv_version cand) d (registry w))).
  { destruct (run_paths P self w)
      as [(e & _ & Hr & Hf)
         | (c0 & df_s & df_p & yt & ys & yt' & ys' & vs & vp & w0 & status &
            _ & _ & Hr0 & Hc0 & Hi & Hr)].
    - left. split; [by apply no_registry_call_no_transition | assumption].
    - rewrite Hi, Hr. clear Hi Hr.
      destruct (promotion_outcome P self vs vp w0)
        as [(Hp & Hreg & _) | (cand & d & _ & L & _ & Hp & Hres)];
        rewrite Hp; clear Hp.
      + left. split; [destruct c0; try discriminate; reflexivity | congruence].
      + right. exists cand, d. rewrite <- Hr0. split; [assumption|].
        split; [destruct c0; try discriminate; reflexivity|].
        destruct Hres as [(e & _ & ->) | [_ ->]]; auto. }
  split; [|split].
  - destruct H as [[-> _] | (cand & d & L & -> & _)]; [by left|].
    right. exists cand. split; [assumption|]. destruct d; auto.
  - intros n v st ae Hin.
    destruct H as [[Ht _] | (cand & d & _ & Ht & _)]; rewrite Ht in Hin.
    + by apply elem_of_nil in Hin.
    + apply list_elem_of_singleton in Hin.
      destruct d; injection Hin as -> -> -> ->; discriminate.
  - intros WF.
    assert (Hmoves : exists d,
              Forall2 (version_move d) (registry w) (registry (run P self w).2)).
    { destruct H as [[_ ->] | (cand & d & L & _ & [-> | ->])].
      - exists archive_staging. apply version_moves_refl.
      - exists d. apply version_moves_refl.
      - exists d. by apply apply_decision_moves. }
    split; [exact Hmoves|].
    destruct Hmoves as [d Hmoves]. intros i mv' Hi Hs.
    destruct (Forall2_lookup_r _ _ _ _ _ Hmoves Hi) as (mv & Hmv & Hk & Hm).
    rewrite Hmv. f_equal. destruct mv, mv'. unfold version_key in Hk.
    simpl in *. injection Hk as -> ->. subst.
    inversion Hm; reflexivity.
Qed.

Lemma run_stage_transitions_witness :
  let P := example_platform metric_0_85 metric_0_80 in
  let self := example_deployment "auc" true in
  well_formed example_registry /\
  transitions (issued (run P self) example_world) =
    [("telco_churn", 4%N, "production", true)] /\
  exists d,
    Forall2 (version_move d) example_registry
      (registry (run P self example_world).2).
Proof.
  cbv zeta.
  assert (WF : well_formed example_registry).
  { unfold well_formed. apply (bool_decide_unpack _). vm_compute. exact I. }
  split; [exact WF|]. split; [vm_compute; reflexivity|].
  destruct (run_stage_transitions
              (example_platform metric_0_85 metric_0_80)
              (example_deployment "auc" true) example_world)
    as (_ & _ & Hstate).
  exact (proj1 (Hstate WF)).
Defined.

(** ** Closing the run scope *)

(** C8: in a run whose experiment is selected and whose
    [start_run("Model Comparison")] succeeds, the calls are those of
    [_set_experiment], [start_run], those of the body, and last [end_run],
    with status FINISHED when the body returned and FAILED when it raised.
    When [end_run] does not raise, the result of the run is the result of
    the body (its exception, if it raised), the run is no longer active and
    is recorded as ended with that status; when [end_run] raises, that is
    the exception of the run. *)
Theorem run_scope_closed P self w :
  let w1 := (_set_experiment P self w).2 in
  let w2 := (mlflow_start_run P "Model Comparison" w1).2 in
  let body := run_body P self w2 in
  let status := match body.1 with Ok _ => FINISHED | Raise _ => FAILED end in
  (_set_experiment P self w).1 = Ok tt ->
  fault P (start_run "Model Comparison") w1 = None ->
  issued (run P self) w =
    issued (_set_experiment P self) w ++ [start_run "Model Comparison"] ++
    issued (run_body P self) w2 ++ [end_run status] /\
  (fault P (end_run status) body.2 = None ->
   (run P self w).1 = body.1 /\
   active_runs (tracking (run P self w).2) = active_runs (tracking w1) /\
   ended_runs (tracking (run P self w).2) =
     ended_runs (tracking w1) ++ [("Model Comparison", status)]) /\
  (forall e, fault P (end_run status) body.2 = Some e ->
     (run P self w).1 = Raise e).
Proof.
  cbv zeta. intros Hsel F.
  destruct (set_experiment_extends P self w) as (Hc1 & _).
  set (S0 := issued (_set_experiment P self) w) in *.
  unfold issued at 1. rewrite run_unfold.
  destruct (_set_experiment P self w) as [[[]|e0] w1] eqn:E1;
    [|discriminate Hsel].
  cbn [fst snd] in *.
  pose proof (with_run_outcome P self w1) as HW. cbv zeta in HW.
  rewrite F in HW.
  assert (Ew2 : (mlflow_start_run P "Model Comparison" w1).2 =
                set_tracking
                  (tracking_start_run "Model Comparison" (tracking w1))
                  (record_call (start_run "Model Comparison") w1)).
  { unfold mlflow_start_run, external, update_tracking. rewrite F.
    reflexivity. }
  rewrite Ew2. set (w2 := set_tracking _ _) in *.
  destruct (run_body_outcome P self w2) as (Hcb & Har & Her & _).
  set (X := issued (run_body P self) w2) in *.
  set (body := run_body P self w2) in *.
  set (status := match body.1 with Ok _ => FINISHED | Raise _ => FAILED end) in *.
  assert (Hc2 : calls body.2 =
                calls w ++ S0 ++ [start_run "Model Comparison"] ++ X).
  { rewrite Hcb. unfold w2. exec_simpl. rewrite Hc1, <- !app_assoc.
    reflexivity. }
  destruct (fault P (end_run status) body.2) as [e|] eqn:Fe; rewrite HW;
    cbn [fst snd]; exec_simpl; rewrite Hc2;
    repeat rewrite <- app_assoc; rewrite drop_app_length.
  - split; [reflexivity|]. split; [discriminate|].
    intros e' [= <-]. reflexivity.
  - split; [reflexivity|]. split; [|discriminate]. intros _.
    split; [reflexivity|].
    unfold tracking_end_run. rewrite Har, Her. unfold w2. exec_simpl.
    cbn [active_runs ended_runs tracking_start_run]. split; reflexivity.
Qed.

Lemma run_scope_closed_witness :
  let P := example_platform metric_0_85 metric_0_80 in
  let self := example_deployment "f1_score" true in
  let w1 := (_set_experiment P self example_world).2 in
  (_set_experiment P self example_world).1 = Ok tt /\
  fault P (start_run "Model Comparison") w1 = None /\
  (run P self example_world).1 = Raise (KeyError "staging_f1_score") /\
  active_runs (tracking (run P self example_world).2) = [] /\
  ended_runs (tracking (run P self example_world).2) =
    [("Model Comparison", FAILED)].
Proof.
  cbv zeta. split; [reflexivity|]. split; [reflexivity|].
  destruct (run_scope_closed (example_platform metric_0_85 metric_0_80)
              (example_deployment "f1_score" true) example_world
              eq_refl eq_refl) as (_ & Hclosed & _).
  destruct (Hclosed eq_refl) as (Hres & Hact & Hend).
  split; [rewrite Hres; vm_compute; reflexivity|].
  split; [rewrite Hact; reflexivity|].
  rewrite Hend. vm_compute. reflexivity.
Defined.

(** ** The examples of the specification (8), run end to end *)

Example run_promotes_higher_metric :
  let res := run (example_platform metric_0_85 metric_0_80)
               (example_deployment "auc" true) example_world in
  res.1 = Ok tt /\
  current_stage <$> registry res.2 =
    [Archived; Archived; Staging; Production; Production].
Proof. vm_compute. split; reflexivity. Qed.

Example run_archives_lower_metric :
  let res := run (example_platform metric_0_80 metric_0_85)
               (example_deployment "auc" true) example_world in
  res.1 = Ok tt /\
  current_stage <$> registry res.2 =
    [Archived; Production; Staging; Archived; Production].
Proof. vm_compute. split; reflexivity. Qed.

Example run_archives_on_tie :
  let res := run (example_platform metric_0_80 metric_0_80)
               (example_deployment "auc" true) example_world in
  res.1 = Ok tt /\
  current_stage <$> registry res.2 =
    [Archived; Production; Staging; Archived; Production].
Proof. vm_compute. split; reflexivity. Qed.

Example run_promotes_lower_error :
  let res := run (example_platform metric_0_10 metric_0_20)
               (example_deployment "auc" false) example_world in
  res.1 = Ok tt /\
  current_stage <$> registry res.2 =
    [Archived; Archived; Staging; Production; Production].
Proof. vm_compute. split; reflexivity. Qed.

(** A whole run whose Staging metric is NaN: it ends normally, has issued no
    transition, and the candidate is still in Staging. *)
Example run_leaves_candidate_on_nan :
  let m := run (example_platform S754_nan metric_0_80)
             (example_deployment "auc" true) in
  (m example_world).1 = Ok tt /\
  transitions (issued m example_world) = [] /\
  registry (m example_world).2 = example_registry.
Proof. vm_compute. repeat split; reflexivity. Qed.

(** * Further properties of the module *)

(** ** The model locator *)

Lemma append_cancel_l (a b c : string) : a +:+ b = a +:+ c -> b = c.
Proof.
  induction a as [|ch a IH]; simpl; [auto|]. intros [= H]. auto.
Qed.

Lemma has_slash_append_r (a b : string) :
  has_slash b = true -> has_slash (a +:+ b) = true.
Proof.
  intros Hb. induction a as [|ch a IH]; [exact Hb|].
  change (String ch a +:+ b) with (String ch (a +:+ b)).
  cbn [has_slash]. rewrite IH. apply orb_true_r.
Qed.

Lemma split_at_last_slash (a a' b b' : string) :
  has_slash b = false -> has_slash b' = false ->
  a +:+ "/" +:+ b = a' +:+ "/" +:+ b' -> a = a' /\ b = b'.
Proof.
  intros Hb Hb'. revert a'.
  induction a as [|ch a IH]; intros [|ch' a'] H;
    cbv [String.append] in H; fold String.append in H.
  - injection H as H. auto.
  - injection H as _ H. exfalso.
    assert (Ht : has_slash b = true)
      by (rewrite H; apply has_slash_append_r; reflexivity).
    congruence.
  - injection H as _ H. exfalso.
    assert (Ht : has_slash b' = true)
      by (rewrite <- H; apply has_slash_append_r; reflexivity).
    congruence.
  - injection H as H1 H. subst ch'. destruct (IH a' H) as [-> ->]. auto.
Qed.

(** The locator built by [_get_model_uri_by_stage] determines the registered
    model and the stage: for stage names without a slash, as the two the
    module uses, two deployments and stages give the same locator only when
    the model names are the same and the stages are the same. *)
Theorem model_uri_determines_model_and_stage self self' stage stage' :
  has_slash stage = false -> has_slash stage' = false ->
  _get_model_uri_by_stage self stage = _get_model_uri_by_stage self' stage' ->
  model_registry_name self = model_registry_name self' /\ stage = stage'.
Proof.
  unfold _get_model_uri_by_stage. intros Hs Hs' H.
  apply append_cancel_l in H. by apply split_at_last_slash.
Qed.

Lemma model_uri_determines_model_and_stage_witness :
  has_slash "staging" = false /\
  _get_model_uri_by_stage (example_deployment "auc" true) "staging" =
    _get_model_uri_by_stage (example_deployment "f1_score" false) "staging" /\
  model_registry_name (example_deployment "auc" true) =
    model_registry_name (example_deployment "f1_score" false).
Proof.
  split; [reflexivity|]. split; [reflexivity|].
  apply (model_uri_determines_model_and_stage
           (example_deployment "auc" true)
           (example_deployment "f1_score" false) "staging" "staging");
    reflexivity.
Defined.

(** ** More on the promotion step *)

(** With two metrics that are numbers (neither is NaN), a lookup that
    answers and a Staging version in the registry, [_run_promotion_logic]
    always issues exactly one transition of that version: to "archived", or
    to "production" with archive_existing_versions. *)
Theorem comparable_metrics_are_decided P self s p w cand :
  let name := model_registry_name self in
  let ts := transitions (issued (_run_promotion_logic P self s p) w) in
  is_nan s = false -> is_nan p = false ->
  fault P (get_latest_versions name ["staging"]) w = None ->
  latest_version (registry w) name Staging = Some cand ->
  ts = [(name, mv_version cand, "archived", false)] \/
  ts = [(name, mv_version cand, "production", true)].
Proof.
  cbv zeta. intros Hs Hp F L.
  destruct (policy_defined (higher_is_better self) s p Hs Hp) as [d D].
  destruct (promotion_decided P self s p w cand d F L D) as [-> _].
  destruct d; auto.
Qed.

Lemma comparable_metrics_are_decided_witness :
  let P := example_platform metric_0_10 metric_0_20 in
  let self := example_deployment "auc" false in
  let ts := transitions
              (issued (_run_promotion_logic P self metric_0_10 metric_0_20)
                 example_world) in
  is_nan metric_0_10 = false /\ is_nan metric_0_20 = false /\
  (ts = [("telco_churn", 4%N, "archived", false)] \/
   ts = [("telco_churn", 4%N, "production", true)]).
Proof.
  cbv zeta. split; [reflexivity|]. split; [reflexivity|].
  apply (comparable_metrics_are_decided
           (example_platform metric_0_10 metric_0_20)
           (example_deployment "auc" false) metric_0_10 metric_0_20
           example_world
           {| mv_name := "telco_churn"; mv_version := 4;
              current_stage := Staging |}); reflexivity.
Defined.

Lemma policy_swap s p d : policy true s p d <-> policy false p s d.
Proof.
  split; intros H; inversion H; subst; constructor; assumption.
Qed.

(** Lower-is-better is higher-is-better with the two metrics exchanged: for
    two deployments of the same registered model that differ in the flag,
    the promotion step issues the same calls for (staging, production) under
    higher_is_better as for (production, staging) without it. *)
Theorem lower_is_better_swaps_metrics P self self' s p w :
  model_registry_name self = model_registry_name self' ->
  higher_is_better self = true -> higher_is_better self' = false ->
  issued (_run_promotion_logic P self s p) w =
  issued (_run_promotion_logic P self' p s) w.
Proof.
  intros Hn Hf Hf'.
  destruct (promotion_outcome P self s p w)
    as [(Hi & _ & [(e & Fe & _) | [(F & Ln & _) | (F & Hno & Hok)]])
       | (c & d & F & L & D & Hi & _)];
  destruct (promotion_outcome P self' p s w)
    as [(Hi' & _ & [(e' & Fe' & _) | [(F' & Ln' & _) | (F' & Hno' & Hok')]])
       | (c' & d' & F' & L' & D' & Hi' & _)];
  rewrite Hi, Hi'; rewrite <- ?Hn in *; try reflexivity; try congruence.
  - exfalso. rewrite Hf' in D'. apply policy_swap in D'.
    rewrite Hf in Hno. exact (Hno d' D').
  - exfalso. rewrite Hf in D. apply policy_swap in D.
    rewrite Hf' in Hno'. exact (Hno' d D).
  - rewrite L in L'. injection L' as <-.
    rewrite Hf in D. rewrite Hf' in D'. apply policy_swap in D.
    rewrite (policy_deterministic _ _ _ _ _ D D'). reflexivity.
Qed.

Lemma lower_is_better_swaps_metrics_witness :
  let P := example_platform metric_0_85 metric_0_80 in
  model_registry_name (example_deployment "auc" true) =
    model_registry_name (example_deployment "auc" false) /\
  issued (_run_promotion_logic P (example_deployment "auc" true)
            metric_0_85 metric_0_80) example_world =
  issued (_run_promotion_logic P (example_deployment "auc" false)
            metric_0_80 metric_0_85) example_world.
Proof.
  cbv zeta. split; [reflexivity|].
  apply (lower_is_better_swaps_metrics
           (example_platform metric_0_85 metric_0_80)
           (example_deployment "auc" true) (example_deployment "auc" false));
    reflexivity.
Defined.

(** ** More on the comparison metric *)

(** [_get_evaluation_metric] logs the whole output of the Evaluator before
    it looks the metric up: when the Evaluator and the logging do not raise,
    the dictionary has been logged whether or not it holds the key, so also
    when the method raises KeyError.  When the Evaluator raises nothing is
    logged, and when the logging raises that exception is the result even if
    the key is there.  The registry is never touched. *)
Theorem metrics_logged_before_lookup P y_true y_score metric stage w :
  let prefix := stage +:+ "_" in
  let d := evaluation P y_true y_score prefix in
  let m := _get_evaluation_metric P y_true y_score metric stage in
  registry (m w).2 = registry w /\
  match fault P (evaluate y_true y_score prefix) w with
  | Some e =>
      (m w).1 = Raise e /\
      issued m w = [evaluate y_true y_score prefix] /\ logged_by m w = []
  | None =>
      issued m w = [evaluate y_true y_score prefix; log_metrics d] /\
      match fault P (log_metrics d)
              (record_call (evaluate y_true y_score prefix) w) with
      | Some e => (m w).1 = Raise e /\ logged_by m w = []
      | None =>
          logged_by m w = [d] /\
          (d !! (prefix +:+ metric) = None ->
           (m w).1 = Raise (KeyError (prefix +:+ metric)))
      end
  end.
Proof.
  cbv zeta. unfold issued, logged_by.
  unfold _get_evaluation_metric, bind, ModelEvaluation_evaluate,
    mlflow_log_metrics, external, ret, raise, update_tracking.
  destruct (fault P (evaluate _ _ _) w) as [e|]; exec_simpl.
  - rewrite drop_app_length, drop_all. auto.
  - destruct (fault P (log_metrics _) _) as [e|]; exec_simpl.
    + rewrite <- app_assoc, drop_app_length, drop_all. auto.
    + destruct (evaluation P y_true y_score (stage +:+ "_")
                  !! ((stage +:+ "_") +:+ metric)) eqn:K; exec_simpl;
        cbn [logged tracking_log_metrics];
        rewrite <- app_assoc, !drop_app_length;
        repeat split; try reflexivity; discriminate.
Qed.

Lemma metrics_logged_before_lookup_witness :
  let P := example_platform metric_0_85 metric_0_80 in
  let m := _get_evaluation_metric P [] [] "f1_score" "staging" in
  evaluation P [] [] "staging_" !! "staging_f1_score" = None /\
  (m example_world).1 = Raise (KeyError "staging_f1_score") /\
  logged_by m example_world = [evaluation P [] [] "staging_"].
Proof.
  cbv zeta. split; [reflexivity|].
  destruct (metrics_logged_before_lookup
              (example_platform metric_0_85 metric_0_80) [] [] "f1_score"
              "staging" example_world) as [_ H].
  cbn in H. destruct H as (_ & Hl & Hk).
  split; [apply Hk; reflexivity | exact Hl].
Defined.

(** ** More on the body of the run *)

Lemma promotion_calls_are_registry_calls P self s p w :
  Forall (fun c => registry_call c = true)
    (issued (_run_promotion_logic P self s p) w).
Proof.
  destruct (promotion_outcome P self s p w)
    as [(Hi & _) | (c & d & _ & _ & _ & Hi & _)]; rewrite Hi;
    repeat constructor.
Qed.

(** What the body of the run does to the tracking store and which calls it
    makes: the selected experiment stays; the calls are calls to the
    Inference Runner, calls that compute or log metrics, and calls to the
    registry; the dictionaries logged are the Evaluator's output for the
    Staging predictions, then the one for the Production predictions, and
    both are there once the registry is called. *)
Lemma run_body_tracking P self w :
  let res := run_body P self w in
  let L := logged_by (run_body P self) w in
  active_experiment (tracking res.2) = active_experiment (tracking w) /\
  Forall (fun c => inference_call c || metric_call c || registry_call c = true)
    (issued (run_body P self) w) /\
  exists yt ys yt' ys',
    (L = [] \/ L = [evaluation P yt ys "staging_"] \/
     L = [evaluation P yt ys "staging_"; evaluation P yt' ys' "production_"]) /\
    (Forall (fun c => registry_call c = false) (issued (run_body P self) w) \/
     L = [evaluation P yt ys "staging_"; evaluation P yt' ys' "production_"]).
Proof.
  cbv zeta. unfold issued, logged_by.
  destruct (run_body P self w) as [r w'] eqn:E. revert E.
  exec_unfold_body. exec_simpl. repeat exec_step.
  all: first
    [ exec_leaf; cbn [logged active_experiment tracking_log_metrics];
      repeat rewrite <- app_assoc; rewrite ?drop_app_length, ?drop_all;
      cbn [app];
      split; [reflexivity|]; split; [repeat constructor|];
      first [ exists [], [], [], []; split; [left; reflexivity|];
              left; repeat constructor
            | do 2 eexists; exists [], []; split; [right; left; reflexivity|];
              left; repeat constructor
            | do 4 eexists; split; [right; right; reflexivity|];
              left; repeat constructor ]
    | intros E ].
  match type of E with
  | _run_promotion_logic _ _ ?vs ?vp ?W0 = _ =>
      destruct (promotion_extends P self vs vp W0) as [Hc Ht];
      pose proof (promotion_calls_are_registry_calls P self vs vp W0) as Hk;
      set (X := issued (_run_promotion_logic P self vs vp) W0) in *;
      rewrite E in Hc, Ht; cbn [snd] in Hc, Ht; exec_simpl in Hc;
      exec_simpl in Ht; cbn [snd]; rewrite Hc, Ht
  end.
  cbn [logged active_experiment tracking_log_metrics].
  repeat rewrite <- app_assoc. rewrite !drop_app_length. cbn [app].
  split; [reflexivity|]. split.
  - repeat (apply Forall_cons; split; [reflexivity|]).
    eapply Forall_impl; [exact Hk|]. intros c Hc'. cbv beta in *.
    rewrite Hc'. by rewrite orb_true_r.
  - do 4 eexists. split; [right; right; reflexivity | right; reflexivity].
Qed.

(** ** More on the whole run *)

(** When [_set_experiment] returns, it has made one call, a call that
    selects the experiment, and the experiment asked for is the active one;
    nothing else of the world has changed. *)
Lemma set_experiment_ok_world P self w w1 :
  _set_experiment P self w = (Ok tt, w1) ->
  exists c0, setup_call c0 = true /\ calls w1 = calls w ++ [c0] /\
    registry w1 = registry w /\
    active_experiment (tracking w1) = selected_experiment self /\
    active_runs (tracking w1) = active_runs (tracking w) /\
    ended_runs (tracking w1) = ended_runs (tracking w) /\
    logged (tracking w1) = logged (tracking w).
Proof.
  rewrite set_experiment_outcome. unfold selected_experiment.
  destruct (experiment_id self); [|destruct (experiment_path self)];
    try destruct (fault P _ w); intros [= <-]; eexists;
    (split; [|repeat split; reflexivity]); reflexivity.
Qed.

Lemma set_experiment_raise_world P self w e w1 :
  _set_experiment P self w = (Raise e, w1) ->
  tracking w1 = tracking w /\ registry w1 = registry w /\
  exists cs, calls w1 = calls w ++ cs /\
             Forall (fun c => setup_call c = true) cs.
Proof.
  rewrite set_experiment_outcome.
  destruct (experiment_id self); [|destruct (experiment_path self)];
    try destruct (fault P _ w); intros [= <- <-];
    (split; [reflexivity|]); (split; [reflexivity|]);
    first [ exists []; split; [symmetry; apply app_nil_r | constructor]
          | eexists; split; [reflexivity | repeat constructor] ].
Qed.

(** The three ways a run can go: the experiment is not selected; the run is
    not started; or the run is started, the body runs, and [end_run] is
    called with the status of the body. *)
Lemma run_cases P self w :
  (exists e w1,
     _set_experiment P self w = (Raise e, w1) /\
     run P self w = (Raise e, w1))
  \/
  (exists e w1,
     _set_experiment P self w = (Ok tt, w1) /\
     fault P (start_run "Model Comparison") w1 = Some e /\
     run P self w = (Raise e, record_call (start_run "Model Comparison") w1))
  \/
  (exists w1 w2 status r w',
     _set_experiment P self w = (Ok tt, w1) /\
     w2 = set_tracking (tracking_start_run "Model Comparison" (tracking w1))
            (record_call (start_run "Model Comparison") w1) /\
     status = match (run_body P self w2).1 with
              | Ok _ => FINISHED
              | Raise _ => FAILED
              end /\
     run P self w = (r, w') /\
     calls w' = calls (run_body P self w2).2 ++ [end_run status] /\
     registry w' = registry (run_body P self w2).2 /\
     ((r = (run_body P self w2).1 /\
       tracking w' = tracking_end_run status (tracking (run_body P self w2).2))
      \/
      ((exists e, r = Raise e /\
          fault P (end_run status) (run_body P self w2).2 = Some e) /\
       tracking w' = tracking (run_body P self w2).2))).
Proof.
  rewrite run_unfold.
  destruct (_set_experiment P self w) as [[[]|e] w1] eqn:E1;
    [|left; eauto].
  right. pose proof (with_run_outcome P self w1) as HW. cbv zeta in HW.
  destruct (fault P (start_run "Model Comparison") w1) eqn:F;
    [left; eauto|].
  right. set (w2 := set_tracking _ _) in *.
  set (status := match (run_body P self w2).1 with
                 | Ok _ => FINISHED | Raise _ => FAILED end) in *.
  destruct (fault P (end_run status) (run_body P self w2).2) as [e|] eqn:Fe;
    rewrite HW; do 5 eexists; repeat (split; [reflexivity|]);
    [right | left]; eauto.
Qed.

(** The calls of a run, by the way it goes (see [run_cases]): calls that
    select the experiment or start the run only; or one such call, the
    [start_run], the calls of the body and one [end_run] with the status of
    the body. *)
Lemma run_calls P self w :
  (Forall (fun c => setup_call c = true) (issued (run P self) w) /\
   (exists e, (run P self w).1 = Raise e /\
              (_set_experiment P self w).1 = Raise e) /\
   tracking (run P self w).2 = tracking w
   \/ exists c0, issued (run P self) w = [c0; start_run "Model Comparison"] /\
        setup_call c0 = true /\
        (exists e w1, (run P self w).1 = Raise e /\
           fault P (start_run "Model Comparison") w1 = Some e) /\
        active_experiment (tracking (run P self w).2) = selected_experiment self /\
        logged (tracking (run P self w).2) = logged (tracking w)) /\
  registry (run P self w).2 = registry w
  \/
  exists c0 w2 status,
    setup_call c0 = true /\
    registry w2 = registry w /\
    active_experiment (tracking w2) = selected_experiment self /\
    logged (tracking w2) = logged (tracking w) /\
    active_runs (tracking w2) = "Model Comparison" :: active_runs (tracking w) /\
    ended_runs (tracking w2) = ended_runs (tracking w) /\
    status = match (run_body P self w2).1 with
             | Ok _ => FINISHED
             | Raise _ => FAILED
             end /\
    issued (run P self) w =
      [c0; start_run "Model Comparison"] ++ issued (run_body P self) w2 ++
      [end_run status] /\
    registry (run P self w).2 = registry (run_body P self w2).2 /\
    (((run P self w).1 = (run_body P self w2).1 /\
      tracking (run P self w).2 =
        tracking_end_run status (tracking (run_body P self w2).2))
     \/
     ((exists e, (run P self w).1 = Raise e /\
         fault P (end_run status) (run_body P self w2).2 = Some e) /\
      tracking (run P self w).2 = tracking (run_body P self w2).2)).
Proof.
  unfold issued at 1 2 3.
  destruct (run_cases P self w)
    as [(e & w1 & E1 & ->)
       | [(e & w1 & E1 & Fs & ->)
         | (w1 & w2 & status & r & w' & E1 & -> & -> & -> & Hc & Hr & Hres)]];
    cbn [fst snd].
  - left. rewrite E1.
    apply set_experiment_raise_world in E1 as (Ht & Hr & cs & Hc & Hf).
    split; [|assumption]. left. rewrite Hc, drop_app_length. eauto.
  - left. apply set_experiment_ok_world in E1
      as (c0 & Hs & Hc & Hr & Ha & _ & _ & Hl).
    exec_simpl. split; [|assumption]. right. exists c0.
    rewrite Hc, <- app_assoc, drop_app_length. eauto 10.
  - right. apply set_experiment_ok_world in E1
      as (c0 & Hs & Hc1 & Hr1 & Ha & Har & Her & Hl).
    set (w2 := set_tracking _ _) in *.
    destruct (run_body_outcome P self w2) as (Hcb & _).
    assert (Hc2 : calls w2 = calls w ++ [c0; start_run "Model Comparison"]).
    { unfold w2. exec_simpl. rewrite Hc1, <- app_assoc. reflexivity. }
    exists c0, w2, (match (run_body P self w2).1 with
                    | Ok _ => FINISHED | Raise _ => FAILED end).
    rewrite Hc, Hcb, Hc2. repeat rewrite <- app_assoc.
    rewrite drop_app_length.
    unfold w2 at 1 2 3 4 5. exec_simpl.
    cbn [active_experiment logged active_runs ended_runs tracking_start_run].
    rewrite Har. repeat (split; [first [assumption | reflexivity]|]).
    exact Hres.
Qed.

Lemma tracking_end_run_frame status t :
  active_experiment (tracking_end_run status t) = active_experiment t /\
  logged (tracking_end_run status t) = logged t.
Proof. unfold tracking_end_run. destruct (active_runs t); split; reflexivity. Qed.

(** [end_run] is called in a run at most once, as the last call, and only
    after the one [start_run]: when it is among the calls of a run, these
    are one call that selects the experiment, [start_run], calls of the body
    (to the Inference Runner, for metrics, to the registry) and that
    [end_run]. *)
Theorem end_run_closes_a_started_run P self w st :
  end_run st ∈ issued (run P self) w ->
  exists c0 bc,
    issued (run P self) w =
      [c0; start_run "Model Comparison"] ++ bc ++ [end_run st] /\
    setup_call c0 = true /\
    Forall (fun c => inference_call c || metric_call c || registry_call c = true)
      bc.
Proof.
  intros Hin.
  destruct (run_calls P self w)
    as [[[(Hf & _) | (c0 & Hi & Hs & _)] _]
       | (c0 & w2 & status & Hs & _ & _ & _ & _ & _ & _ & Hi & _)].
  - rewrite Forall_forall in Hf. apply Hf in Hin. cbn in Hin. discriminate Hin.
  - rewrite Hi in Hin.
    apply elem_of_cons in Hin as [<- | Hin]; [discriminate Hs|].
    apply list_elem_of_singleton in Hin. discriminate Hin.
  - destruct (run_body_tracking P self w2) as (_ & Hk & _).
    rewrite Hi in Hin. exists c0, (issued (run_body P self) w2).
    assert (st = status) as ->; [|auto].
    apply elem_of_cons in Hin as [<- | Hin]; [discriminate Hs|].
    apply elem_of_cons in Hin as [Hin | Hin]; [discriminate Hin|].
    apply elem_of_app in Hin as [Hin | Hin].
    + rewrite Forall_forall in Hk. apply Hk in Hin. cbn in Hin. discriminate Hin.
    + apply list_elem_of_singleton in Hin. by injection Hin.
Qed.

Lemma end_run_closes_a_started_run_witness :
  let P := example_platform metric_0_85 metric_0_80 in
  let self := example_deployment "f1_score" true in
  end_run FAILED ∈ issued (run P self) example_world /\
  exists c0 bc,
    issued (run P self) example_world =
      [c0; start_run "Model Comparison"] ++ bc ++ [end_run FAILED].
Proof.
  cbv zeta.
  assert (Hin : end_run FAILED ∈
            issued (run (example_platform metric_0_85 metric_0_80)
                      (example_deployment "f1_score" true)) example_world)
    by (vm_compute; do 8 right; left).
  split; [exact Hin|].
  destruct (end_run_closes_a_started_run _ _ _ _ Hin) as (c0 & bc & Hcs & _).
  exists c0, bc. exact Hcs.
Defined.

Lemma transitions_app (a b : list Call) :
  transitions (a ++ b) = transitions a ++ transitions b.
Proof. unfold transitions. apply omap_app. Qed.

(** A run that returns has gone all the way: the experiment was selected,
    the run started, both metrics found, the promotion step returned and the
    run was ended FINISHED. *)
Lemma run_ok_inv P self w :
  (run P self w).1 = Ok tt ->
  exists yt ys yt' ys' vs vp w0,
    evaluation P yt ys "staging_"
      !! ("staging_" +:+ comparison_metric self) = Some vs /\
    evaluation P yt' ys' "production_"
      !! ("production_" +:+ comparison_metric self) = Some vp /\
    registry w0 = registry w /\
    (_run_promotion_logic P self vs vp w0).1 = Ok tt /\
    registry (run P self w).2 = registry (_run_promotion_logic P self vs vp w0).2 /\
    transitions (issued (run P self) w) =
      transitions (issued (_run_promotion_logic P self vs vp) w0) /\
    active_runs (tracking (run P self w).2) = active_runs (tracking w) /\
    ended_runs (tracking (run P self w).2) =
      ended_runs (tracking w) ++ [("Model Comparison", FINISHED)].
Proof.
  intros Hok.
  destruct (run_calls P self w)
    as [[[(_ & (e & He & _) & _) | (c0 & _ & _ & (e & w1 & He & _) & _)] _]
       | (c0 & w2 & status & Hs & Hr2 & _ & _ & Har & Her & Hst & Hi & Hr & Hres)];
    try congruence.
  destruct Hres as [[Hres Ht] | [(e & He & _) _]]; [|congruence].
  rewrite Hok in Hres.
  destruct (run_body_outcome P self w2) as (_ & Hab & Heb & Hb).
  destruct Hb as [(e & He & _) | Hb]; [congruence|].
  destruct Hb as (df_s & df_p & yt & ys & yt' & ys' & vs & vp & w0 &
                  Ks & Kp & Hr0 & HX & Hbody).
  exists yt, ys, yt', ys', vs, vp, w0.
  rewrite Hi, HX, Hr, Ht, <- Hbody, <- Hres in *.
  subst status. cbn [fst] in *.
  split; [exact Ks|]. split; [exact Kp|]. split; [congruence|].
  split; [reflexivity|]. split; [reflexivity|]. split.
  - rewrite !transitions_app.
    replace (transitions [c0; start_run "Model Comparison"]) with
      (@nil (string * N * string * bool))
      by (destruct c0; try discriminate; reflexivity).
    cbn. by rewrite app_nil_r.
  - unfold tracking_end_run. rewrite Hab, Heb, Har, Her. split; reflexivity.
Qed.

(** ** More on the registry *)

(** The registry after a run is the registry before it, or that registry
    with one decision carried out on its latest Staging version. *)
Lemma run_registry_outcome P self w :
  registry (run P self w).2 = registry w \/
  exists cand d,
    latest_version (registry w) (model_registry_name self) Staging = Some cand /\
    registry (run P self w).2 =
      apply_decision (model_registry_name self) (mv_version cand) d (registry w).
Proof.
  destruct (run_paths P self w)
    as [(e & _ & Hr & _)
       | (c0 & df_s & df_p & yt & ys & yt' & ys' & vs & vp & w0 & status &
          _ & _ & Hr0 & _ & _ & Hr)]; [by left|].
  rewrite Hr.
  destruct (promotion_outcome P self vs vp w0)
    as [(_ & Hreg & _) | (cand & d & _ & L & _ & _ & Hres)].
  - left. congruence.
  - rewrite Hr0 in *.
    destruct Hres as [(e & _ & ->) | [_ ->]]; [by left|].
    right. eauto.
Qed.

Lemma transition_one_key name version st ae mv :
  version_key (transition_one name version st ae mv) = version_key mv.
Proof.
  unfold transition_one.
  destruct (is_version name version mv); [reflexivity|].
  destruct (ae && in_stage name st mv); reflexivity.
Qed.

Lemma transition_one_other_model name version st ae mv :
  mv_name mv <> name -> transition_one name version st ae mv = mv.
Proof.
  intros Hn. unfold transition_one, is_version, in_stage.
  rewrite !bool_decide_eq_false_2 by assumption. cbn.
  by rewrite andb_false_r.
Qed.

(** A run neither adds nor removes a version, nor changes the model or the
    number of one: the registry after the run lists the same versions in the
    same order.  So a registry in which a number identifies one version is
    still such a registry afterwards.  The versions of every other
    registered model are exactly as they were, stage included. *)
Theorem run_keeps_the_versions P self w :
  let after := registry (run P self w).2 in
  version_key <$> after = version_key <$> registry w /\
  (well_formed (registry w) -> well_formed after) /\
  (forall i mv, registry w !! i = Some mv ->
     mv_name mv <> model_registry_name self -> after !! i = Some mv).
Proof.
  cbv zeta.
  assert (Hk : version_key <$> registry (run P self w).2 =
               version_key <$> registry w).
  { destruct (run_registry_outcome P self w) as [-> | (cand & d & _ & ->)];
      [reflexivity|].
    unfold apply_decision. rewrite <- list_fmap_compose.
    apply list_fmap_ext. intros i mv _. apply transition_one_key. }
  split; [exact Hk|]. split.
  - unfold well_formed. by rewrite Hk.
  - intros i mv Hi Hn.
    destruct (run_registry_outcome P self w) as [-> | (cand & d & _ & ->)];
      [assumption|].
    unfold apply_decision. rewrite list_lookup_fmap, Hi. cbn.
    by rewrite transition_one_other_model.
Qed.

Lemma run_keeps_the_versions_witness :
  let P := example_platform metric_0_85 metric_0_80 in
  let self := example_deployment "auc" true in
  well_formed example_registry /\
  well_formed (registry (run P self example_world).2) /\
  registry (run P self example_world).2 !! 4%nat =
    Some {| mv_name := "other_model"; mv_version := 7;
            current_stage := Production |}.
Proof.
  cbv zeta.
  assert (WF : well_formed example_registry).
  { unfold well_formed. apply (bool_decide_unpack _). vm_compute. exact I. }
  split; [exact WF|].
  destruct (run_keeps_the_versions (example_platform metric_0_85 metric_0_80)
              (example_deployment "auc" true) example_world)
    as (_ & Hwf & Hother).
  split; [exact (Hwf WF)|].
  apply Hother; [reflexivity | discriminate].
Defined.

Lemma promoted_is_only_production name version reg mv :
  mv ∈ apply_decision name version promote_staging reg ->
  mv_name mv = name -> current_stage mv = Production ->
  mv_version mv = version.
Proof.
  unfold apply_decision. intros Hin Hn Hs.
  apply list_elem_of_fmap in Hin as (mv0 & -> & _).
  unfold transition_one in *. cbn [target_stage decision_archive_existing] in *.
  destruct (is_version name version mv0) eqn:V.
  - apply is_version_key in V. by injection V.
  - cbn [andb] in *. destruct (in_stage name Production mv0) eqn:S.
    + discriminate Hs.
    + unfold in_stage in S.
      rewrite !bool_decide_eq_true_2 in S by assumption. discriminate S.
Qed.

Lemma staging_after_decision name version d reg mv :
  mv ∈ apply_decision name version d reg ->
  mv_name mv = name -> current_stage mv = Staging ->
  mv ∈ reg /\ mv_version mv <> version.
Proof.
  unfold apply_decision. intros Hin Hn Hs.
  apply list_elem_of_fmap in Hin as (mv0 & -> & Hin0).
  unfold transition_one in *.
  destruct (is_version name version mv0) eqn:V.
  - destruct d; discriminate Hs.
  - destruct (decision_archive_existing d && in_stage name (target_stage d) mv0);
      [discriminate Hs|].
    split; [assumption|]. intros Hv.
    assert (is_version name version mv0 = true); [|congruence].
    apply is_version_key. unfold version_key. by rewrite Hn, Hv.
Qed.

(** A run that returns and has issued a transition has taken the latest
    Staging version out of Staging: afterwards no version of the model with
    that number is in Staging, and the latest Staging version, if there is
    one, was already in Staging before the run and has a lower number.  So
    successive runs work through the Staging versions from the most recent
    down. *)
Theorem decided_run_consumes_candidate P self w :
  let name := model_registry_name self in
  let after := registry (run P self w).2 in
  (run P self w).1 = Ok tt ->
  transitions (issued (run P self) w) <> [] ->
  exists cand,
    latest_version (registry w) name Staging = Some cand /\
    (forall mv, mv ∈ after -> mv_name mv = name ->
       current_stage mv = Staging -> mv_version mv <> mv_version cand) /\
    (forall next, latest_version after name Staging = Some next ->
       next ∈ registry w /\ (mv_version next < mv_version cand)%N).
Proof.
  cbv zeta. intros Hok Hts.
  destruct (run_ok_inv P self w Hok)
    as (yt & ys & yt' & ys' & vs & vp & w0 & _ & _ & Hr0 & Hpok & Hr & Ht & _).
  rewrite Ht in Hts. rewrite Hr.
  destruct (promotion_outcome P self vs vp w0)
    as [(Hi & _) | (cand & d & _ & L & D & Hi & [(e & He & _) | [_ Hreg]])];
    try congruence.
  { rewrite Hi in Hts. by destruct Hts. }
  rewrite Hreg, Hr0 in *. exists cand. split; [assumption|].
  assert (Hst : forall mv,
            mv ∈ apply_decision (model_registry_name self) (mv_version cand)
                   d (registry w) ->
            mv_name mv = model_registry_name self ->
            current_stage mv = Staging ->
            mv ∈ registry w /\ mv_version mv <> mv_version cand).
  { intros mv. apply staging_after_decision. }
  split; [intros mv H1 H2 H3; by apply (Hst mv)|].
  intros next Ln. apply latest_version_Some in Ln as (Hin & Hn & Hs & _).
  destruct (Hst next Hin Hn Hs) as [Hin0 Hne]. split; [assumption|].
  apply latest_version_Some in L as (_ & _ & _ & Hmax).
  assert (Hs0 : current_stage next = Staging) by assumption.
  pose proof (Hmax next Hin0 Hn Hs0). lia.
Qed.

Lemma decided_run_consumes_candidate_witness :
  let P := example_platform metric_0_80 metric_0_85 in
  let self := example_deployment "auc" true in
  (run P self example_world).1 = Ok tt /\
  transitions (issued (run P self) example_world) <> [] /\
  latest_version (registry (run P self example_world).2) "telco_churn" Staging =
    Some {| mv_name := "telco_churn"; mv_version := 3;
            current_stage := Staging |} /\
  exists cand,
    latest_version example_registry "telco_churn" Staging = Some cand /\
    (3 < mv_version cand)%N.
Proof.
  cbv zeta.
  assert (Hok : (run (example_platform metric_0_80 metric_0_85)
                   (example_deployment "auc" true) example_world).1 = Ok tt)
    by (vm_compute; reflexivity).
  assert (Hts : transitions
                  (issued (run (example_platform metric_0_80 metric_0_85)
                             (example_deployment "auc" true)) example_world)
                <> []) by (vm_compute; discriminate).
  assert (Hn : latest_version
                 (registry (run (example_platform metric_0_80 metric_0_85)
                              (example_deployment "auc" true) example_world).2)
                 "telco_churn" Staging =
               Some {| mv_name := "telco_churn"; mv_version := 3;
                       current_stage := Staging |})
    by (vm_compute; reflexivity).
  split; [exact Hok|]. split; [exact Hts|]. split; [exact Hn|].
  destruct (decided_run_consumes_candidate _ _ _ Hok Hts)
    as (cand & L & _ & Hnext).
  exists cand. split; [exact L|]. exact (proj2 (Hnext _ Hn)).
Defined.

(** ** Failures before the metrics *)













(** ** A transition that fails *)





(** * The run with its own frames and metrics *)

(** The body of the run, with the frames it gets and the series it reads
    from them.  Either it raises before the promotion step, having made no
    call to the registry, and what it has logged is nothing, or the
    Evaluator's output for the label and prediction columns of the Staging
    frame, or that and its output for the columns of the Production frame;
    or both outputs hold the metric, both have been logged, and it ends with
    [_run_promotion_logic] on the two values found. *)
Lemma run_body_exact P self w :
  let uri := _get_model_uri_by_stage self in
  let data := reference_data self in
  let metric := comparison_metric self in
  let f_s := inference P (uri "staging") data (registry w) in
  let f_p := inference P (uri "production") data (registry w) in
  let res := run_body P self w in
  let L := logged_by (run_body P self) w in
  ((exists e, res.1 = Raise e) /\
   registry res.2 = registry w /\
   Forall (fun c => registry_call c = false) (issued (run_body P self) w) /\
   (L = [] \/
    exists yt ys,
      f_s !! label_col self = Some yt /\ f_s !! "prediction" = Some ys /\
      (L = [evaluation P yt ys "staging_"] \/
       exists yt' ys',
         f_p !! label_col self = Some yt' /\ f_p !! "prediction" = Some ys' /\
         L = [evaluation P yt ys "staging_";
              evaluation P yt' ys' "production_"])))
  \/
  (exists yt ys yt' ys' vs vp w0,
     f_s !! label_col self = Some yt /\ f_s !! "prediction" = Some ys /\
     f_p !! label_col self = Some yt' /\ f_p !! "prediction" = Some ys' /\
     evaluation P yt ys "staging_" !! ("staging_" +:+ metric) = Some vs /\
     evaluation P yt' ys' "production_" !! ("production_" +:+ metric) = Some vp /\
     registry w0 = registry w /\
     issued (run_body P self) w =
       [run_batch (uri "staging") data; run_batch (uri "production") data;
        toPandas f_s; toPandas f_p;
        evaluate yt ys "staging_";
        log_metrics (evaluation P yt ys "staging_");
        evaluate yt' ys' "production_";
        log_metrics (evaluation P yt' ys' "production_")]
       ++ issued (_run_promotion_logic P self vs vp) w0 /\
     L = [evaluation P yt ys "staging_"; evaluation P yt' ys' "production_"] /\
     res = _run_promotion_logic P self vs vp w0).
Proof.
  cbv zeta. unfold issued at 1 2, logged_by.
  destruct (run_body P self w) as [r w'] eqn:E. revert E.
  exec_unfold_body. exec_simpl. repeat exec_step.
  all: first
    [ exec_leaf; cbn [logged tracking_log_metrics];
      repeat rewrite <- app_assoc; rewrite ?drop_app_length, ?drop_all;
      cbn [app];
      left; split; [eexists; reflexivity|]; split; [reflexivity|];
      split; [repeat constructor|];
      first [ left; reflexivity
            | right; do 2 eexists; split; [reflexivity|];
              split; [reflexivity|];
              first [ left; reflexivity
                    | right; do 2 eexists; split; [reflexivity|];
                      split; [reflexivity|]; reflexivity ] ]
    | intros E ].
  match type of E with
  | _run_promotion_logic _ _ ?vs ?vp ?W0 = _ =>
      destruct (promotion_extends P self vs vp W0) as [Hc Ht];
      set (X := issued (_run_promotion_logic P self vs vp) W0) in *;
      rewrite E in Hc, Ht; cbn [snd] in Hc, Ht; exec_simpl in Hc;
      exec_simpl in Ht; cbn [snd]; rewrite Hc, Ht;
      cbn [logged tracking_log_metrics];
      repeat rewrite <- app_assoc; rewrite !drop_app_length;
      right; do 6 eexists; exists W0;
      repeat (split; [reflexivity|]);
      split; [eassumption|]; split; [eassumption|];
      repeat (split; [reflexivity|]); symmetry; exact E
  end.
Qed.

(** The whole run, with its own frames and metrics.  Either it raises
    without having called the registry; or it reaches the promotion step
    with the two metrics the Evaluator gave for the columns of the two
    frames, and ends the run after it. *)
Lemma run_paths_exact P self w :
  let uri := _get_model_uri_by_stage self in
  let data := reference_data self in
  let metric := comparison_metric self in
  let f_s := inference P (uri "staging") data (registry w) in
  let f_p := inference P (uri "production") data (registry w) in
  let res := run P self w in
  let L := logged_by (run P self) w in
  ((exists e, res.1 = Raise e) /\
   registry res.2 = registry w /\
   Forall (fun c => registry_call c = false) (issued (run P self) w) /\
   (L = [] \/
    exists yt ys,
      f_s !! label_col self = Some yt /\ f_s !! "prediction" = Some ys /\
      (L = [evaluation P yt ys "staging_"] \/
       exists yt' ys',
         f_p !! label_col self = Some yt' /\ f_p !! "prediction" = Some ys' /\
         L = [evaluation P yt ys "staging_";
              evaluation P yt' ys' "production_"])))
  \/
  (exists c0 yt ys yt' ys' vs vp w0 status,
     f_s !! label_col self = Some yt /\ f_s !! "prediction" = Some ys /\
     f_p !! label_col self = Some yt' /\ f_p !! "prediction" = Some ys' /\
     evaluation P yt ys "staging_" !! ("staging_" +:+ metric) = Some vs /\
     evaluation P yt' ys' "production_" !! ("production_" +:+ metric) = Some vp /\
     registry w0 = registry w /\
     setup_call c0 = true /\
     status = match (_run_promotion_logic P self vs vp w0).1 with
              | Ok _ => FINISHED
              | Raise _ => FAILED
              end /\
     issued (run P self) w =
       [c0; start_run "Model Comparison";
        run_batch (uri "staging") data; run_batch (uri "production") data;
        toPandas f_s; toPandas f_p;
        evaluate yt ys "staging_";
        log_metrics (evaluation P yt ys "staging_");
        evaluate yt' ys' "production_";
        log_metrics (evaluation P yt' ys' "production_")]
       ++ issued (_run_promotion_logic P self vs vp) w0 ++ [end_run status] /\
     L = [evaluation P yt ys "staging_"; evaluation P yt' ys' "production_"] /\
     registry res.2 = registry (_run_promotion_logic P self vs vp w0).2 /\
     ((res.1 = (_run_promotion_logic P self vs vp w0).1 /\
       active_runs (tracking res.2) = active_runs (tracking w) /\
       ended_runs (tracking res.2) =
         ended_runs (tracking w) ++ [("Model Comparison", status)])
      \/
      (exists e w', fault P (end_run status) w' = Some e /\
                    res.1 = Raise e))).
Proof.
  cbv zeta. unfold logged_by.
  destruct (run_calls P self w)
    as [[[(Hf & (e & He & _) & Ht) | (c0 & Hi & Hs & (e & w1 & He & _) & _ & Hl)] Hr]
       | (c0 & w2 & status & Hs & Hr2 & _ & Hl & Har & Her & Hst & Hi & Hr & Hres)].
  - left. split; [eauto|]. split; [assumption|]. split.
    + eapply Forall_impl; [exact Hf|]. intros c Hc. by destruct c.
    + left. rewrite Ht. apply drop_all.
  - left. split; [eauto|]. split; [assumption|]. split.
    + rewrite Hi. repeat constructor. by destruct c0.
    + left. rewrite Hl. apply drop_all.
  - assert (Hlog : logged (tracking (run P self w).2) =
                   logged (tracking (run_body P self w2).2)).
    { destruct Hres as [[_ ->] | [_ ->]];
        rewrite ?(proj2 (tracking_end_run_frame _ _)); reflexivity. }
    rewrite Hlog, <- Hl.
    destruct (run_body_outcome P self w2) as (_ & Hab & Heb & _).
    pose proof (run_body_exact P self w2) as Hex. cbv zeta in Hex.
    unfold logged_by in Hex. rewrite Hr2 in Hex.
    destruct Hex as [((e & He) & Hrb & Hfb & HL)
                    | (yt & ys & yt' & ys' & vs & vp & w0 & C1 & C2 & C3 & C4 &
                       Ks & Kp & Hr0 & HX & HL & Hbody)].
    + left. split.
      { destruct Hres as [[-> _] | [(e' & -> & _) _]]; eauto. }
      split; [congruence|]. split; [|exact HL].
      rewrite Hi. apply Forall_cons. split; [by destruct c0|].
      apply Forall_cons. split; [reflexivity|].
      apply Forall_app. split; [exact Hfb | repeat constructor].
    + right. exists c0, yt, ys, yt', ys', vs, vp, w0, status.
      rewrite <- Hbody. rewrite Hi, HX.
      repeat (split; [first [assumption | reflexivity | congruence]|]).
      destruct Hres as [[-> ->] | [(e' & -> & Fe) _]]; [left | right; eauto].
      split; [reflexivity|]. unfold tracking_end_run.
      rewrite Hab, Heb, Har, Her. split; reflexivity.
Qed.

(** ** The candidate of the promotion step, in the step and in the run *)

(** Without a Staging version of the model the promotion step makes the
    lookup only and raises: IndexError, or what the lookup itself raised. *)
Lemma promotion_no_staging P self s p w :
  let lookup := get_latest_versions (model_registry_name self) ["staging"] in
  let res := _run_promotion_logic P self s p w in
  latest_version (registry w) (model_registry_name self) Staging = None ->
  issued (_run_promotion_logic P self s p) w = [lookup] /\
  registry res.2 = registry w /\
  ((fault P lookup w = None /\ res.1 = Raise IndexError) \/
   (exists e, fault P lookup w = Some e /\ res.1 = Raise e)).
Proof.
  cbv zeta. intros Hnone.
  destruct (promotion_outcome P self s p w)
    as [(Hi & Hr & [(e & Fe & He) | [(F & _ & He) | (F & Hno & Hok)]])
       | (cand & d & _ & L & _)]; try congruence.
  - split; [assumption|]. split; [assumption|]. right. eauto.
  - split; [assumption|]. split; [assumption|]. left. auto.
  - exfalso. revert Hok. unfold _run_promotion_logic, bind,
      client_get_latest_versions, external, getitem_0.
    rewrite F. exec_simpl. rewrite lookup_staging, Hnone. discriminate.
Qed.

(** C5: the version a transition acts upon is the latest version in stage
    Staging of the configured model, in the promotion step and in the whole
    run: it is in the registry under that name, in Staging, and no Staging
    version of that name has a higher number.  When the registry has no
    Staging version of that name, the promotion step raises (IndexError when
    the lookup itself answers), issues no transition and leaves the registry
    as it was; and the run raises, issues no transition and leaves the
    registry as it was.  If that run reaches the lookup, the run is ended
    FAILED and its exception is IndexError, unless the lookup itself or
    [end_run] raised. *)
Theorem promotion_acts_on_latest_staging P self s p w :
  let name := model_registry_name self in
  let lookup := get_latest_versions name ["staging"] in
  let ts := transitions (issued (_run_promotion_logic P self s p) w) in
  let res := _run_promotion_logic P self s p w in
  let run_ts := transitions (issued (run P self) w) in
  let latest_staging n v :=
    n = name /\
    exists cand,
      v = mv_version cand /\ cand ∈ registry w /\
      mv_name cand = name /\ current_stage cand = Staging /\
      forall mv, mv ∈ registry w -> mv_name mv = name ->
        current_stage mv = Staging -> (mv_version mv <= mv_version cand)%N in
  let no_staging :=
    forall mv, mv ∈ registry w ->
      ~ (mv_name mv = name /\ current_stage mv = Staging) in
  (forall n v st ae, (n, v, st, ae) ∈ ts -> latest_staging n v) /\
  (no_staging ->
   (exists e, res.1 = Raise e /\ (fault P lookup w = None -> e = IndexError)) /\
   ts = [] /\ registry res.2 = registry w) /\
  (forall n v st ae, (n, v, st, ae) ∈ run_ts -> latest_staging n v) /\
  (no_staging ->
   (exists e, (run P self w).1 = Raise e) /\
   run_ts = [] /\ registry (run P self w).2 = registry w /\
   (lookup ∈ issued (run P self) w ->
    end_run FAILED ∈ issued (run P self) w /\
    ((run P self w).1 = Raise IndexError \/
     (exists e w', fault P lookup w' = Some e /\ (run P self w).1 = Raise e) \/
     (exists e w', fault P (end_run FAILED) w' = Some e /\
                   (run P self w).1 = Raise e)))).
Proof.
  cbv zeta. split; [|split; [|split]].
  - intros n v st ae Hin.
    destruct (promotion_outcome P self s p w)
      as [(Hi & _) | (cand & d & _ & L & _ & Hi & _)]; rewrite Hi in Hin.
    + by apply elem_of_nil in Hin.
    + apply list_elem_of_singleton in Hin. injection Hin as -> -> -> ->.
      split; [reflexivity|]. exists cand.
      apply latest_version_Some in L as (H1 & H2 & H3 & H4). auto.
  - intros Hnone. apply latest_version_None in Hnone.
    destruct (promotion_no_staging P self s p w Hnone)
      as (Hi & Hr & [[F He] | (e & Fe & He)]); rewrite Hi.
    + split; [|auto]. exists IndexError. auto.
    + split; [|auto]. exists e. split; [assumption | intros; congruence].
  - intros n v st ae Hin.
    destruct (run_paths_exact P self w)
      as [(_ & _ & Hf & _)
         | (c0 & yt & ys & yt' & ys' & vs & vp & w0 & status & _ & _ & _ & _ &
            _ & _ & Hr0 & Hs & _ & Hi & _)].
    + rewrite (no_registry_call_no_transition _ Hf) in Hin.
      by apply elem_of_nil in Hin.
    + rewrite Hi, !transitions_app in Hin.
      replace (transitions _) with (@nil (string * N * string * bool)) in Hin
        by (destruct c0; try discriminate; reflexivity).
      cbn [app transitions omap list_omap] in Hin. rewrite app_nil_r in Hin.
      destruct (promotion_outcome P self vs vp w0)
        as [(Hp & _) | (cand & d & _ & L & _ & Hp & _)]; rewrite Hp in Hin.
      * by apply elem_of_nil in Hin.
      * apply list_elem_of_singleton in Hin. injection Hin as -> -> -> ->.
        split; [reflexivity|]. exists cand. rewrite Hr0 in L.
        apply latest_version_Some in L as (H1 & H2 & H3 & H4). auto.
  - intros Hnone. apply latest_version_None in Hnone.
    destruct (run_paths_exact P self w)
      as [(He & Hr & Hf & _)
         | (c0 & yt & ys & yt' & ys' & vs & vp & w0 & status & _ & _ & _ & _ &
            _ & _ & Hr0 & Hs & Hst & Hi & _ & Hr & Hres)].
    + split; [exact He|].
      split; [by apply no_registry_call_no_transition|].
      split; [exact Hr|]. intros Hin.
      rewrite Forall_forall in Hf. apply Hf in Hin. discriminate Hin.
    + rewrite <- Hr0 in Hnone.
      destruct (promotion_no_staging P self vs vp w0 Hnone) as (Hp & Hrp & Hres0).
      assert (Hraise : exists e, (_run_promotion_logic P self vs vp w0).1 = Raise e).
      { destruct Hres0 as [[_ ->] | (e & _ & ->)]; eauto. }
      destruct Hraise as [e0 He0]. rewrite He0 in Hst. subst status.
      rewrite Hi, Hp, Hr, Hrp, Hr0.
      split.
      { destruct Hres as [[-> _] | (e & w' & _ & ->)]; eauto. }
      split.
      { rewrite !transitions_app.
        replace (transitions [c0; _; _; _; _; _; _; _; _; _]) with
          (@nil (string * N * string * bool))
          by (destruct c0; try discriminate; reflexivity).
        reflexivity. }
      split; [reflexivity|]. intros _. split.
      { apply elem_of_app. right. apply elem_of_app. right. left. }
      destruct Hres as [[-> _] | (e & w' & Fe & ->)].
      * destruct Hres0 as [[_ ->] | (e & Fe & ->)]; [by left|].
        right. left. eauto.
      * right. right. eauto.
Qed.

Lemma promotion_acts_on_latest_staging_witness :
  let P := example_platform metric_0_85 metric_0_80 in
  let self := example_deployment "auc" true in
  (("telco_churn", 4%N, "production", true) ∈
     transitions (issued (run P self) example_world) /\
   exists cand, 4%N = mv_version cand /\ cand ∈ example_registry /\
                current_stage cand = Staging) /\
  ((forall mv, mv ∈ registry no_staging_world ->
      ~ (mv_name mv = "telco_churn" /\ current_stage mv = Staging)) /\
   get_latest_versions "telco_churn" ["staging"]
     ∈ issued (run P self) no_staging_world /\
   (run P self no_staging_world).1 = Raise IndexError /\
   registry (run P self no_staging_world).2 = registry no_staging_world).
Proof.
  cbv zeta. split.
  - assert (Hin : ("telco_churn", 4%N, "production", true) ∈
      transitions
        (issued (run (example_platform metric_0_85 metric_0_80)
                   (example_deployment "auc" true)) example_world))
      by (vm_compute; left).
    split; [exact Hin|].
    destruct (promotion_acts_on_latest_staging
                (example_platform metric_0_85 metric_0_80)
                (example_deployment "auc" true) metric_0_85 metric_0_80
                example_world) as (_ & _ & Hacts & _).
    destruct (Hacts _ _ _ _ Hin) as (_ & cand & Hv & Hc & _ & Hs & _).
    exists cand. auto.
  - assert (Hno : forall mv, mv ∈ registry no_staging_world ->
              ~ (mv_name mv = "telco_churn" /\ current_stage mv = Staging)).
    { intros mv Hmv [Hn Hs]. cbn in Hmv.
      repeat (apply elem_of_cons in Hmv as [-> | Hmv]; [discriminate|]).
      by apply elem_of_nil in Hmv. }
    assert (Hin : get_latest_versions "telco_churn" ["staging"]
              ∈ issued (run (example_platform metric_0_85 metric_0_80)
                          (example_deployment "auc" true)) no_staging_world)
      by (vm_compute; do 10 right; left).
    split; [exact Hno|]. split; [exact Hin|].
    destruct (promotion_acts_on_latest_staging
                (example_platform metric_0_85 metric_0_80)
                (example_deployment "auc" true) metric_0_85 metric_0_80
                no_staging_world) as (_ & _ & _ & Hrun).
    destruct (Hrun Hno) as (_ & _ & Hr & Hreach).
    split; [|exact Hr].
    destruct (Hreach Hin) as [_ [Hix | [(e & w' & Fe & _) | (e & w' & Fe & _)]]];
      [exact Hix | discriminate Fe | discriminate Fe].
Defined.

(** ** Archiving and the other versions *)

(** C9: when the decision is to archive the candidate and the lookup has
    answered with it, exactly one transition is issued: of that version, to
    "archived", without archive_existing_versions; every other version of
    the registry is afterwards what it was before (in a registry where a
    number identifies one version that includes every version in stage
    Production), and when the call returns the candidate itself is in
    Archived.  When the decision is to promote, the one transition is to
    "production" and asks for the existing versions to be archived.  No
    transition to "archived" ever asks for that, and a transition that asks
    for it is to "production". *)
Theorem archive_leaves_other_versions P self s p w :
  let name := model_registry_name self in
  let lookup := get_latest_versions name ["staging"] in
  let ts := transitions (issued (_run_promotion_logic P self s p) w) in
  let res := _run_promotion_logic P self s p w in
  let after := registry res.2 in
  let archive := (if higher_is_better self then py_le s p else py_ge s p) in
  let promote := (if higher_is_better self then py_gt s p else py_lt s p) in
  (forall n v ae, (n, v, "archived", ae) ∈ ts -> ae = false) /\
  (forall n v st, (n, v, st, true) ∈ ts -> st = "production") /\
  (archive = true ->
   forall cand, latest_version (registry w) name Staging = Some cand ->
     (ts = [] \/ ts = [(name, mv_version cand, "archived", false)]) /\
     (forall i mv, registry w !! i = Some mv ->
        version_key mv <> (name, mv_version cand) -> after !! i = Some mv) /\
     (well_formed (registry w) ->
      forall i mv, registry w !! i = Some mv ->
        current_stage mv = Production -> after !! i = Some mv)) /\
  (archive = true -> fault P lookup w = None ->
   forall cand, latest_version (registry w) name Staging = Some cand ->
     ts = [(name, mv_version cand, "archived", false)] /\
     (res.1 = Ok tt ->
      forall i mv, registry w !! i = Some mv ->
        version_key mv = (name, mv_version cand) ->
        after !! i = Some (with_stage Archived mv))) /\
  (promote = true -> fault P lookup w = None ->
   forall cand, latest_version (registry w) name Staging = Some cand ->
     ts = [(name, mv_version cand, "production", true)]).
Proof.
  cbv zeta.
  assert (Harchive :
    (if higher_is_better self then py_le s p else py_ge s p) = true ->
    policy (higher_is_better self) s p archive_staging)
    by (destruct (higher_is_better self); by constructor).
  assert (Hpromote :
    (if higher_is_better self then py_gt s p else py_lt s p) = true ->
    policy (higher_is_better self) s p promote_staging)
    by (destruct (higher_is_better self); by constructor).
  split; [|split; [|split; [|split]]].
  - intros n v ae H.
    destruct (promotion_outcome P self s p w)
      as [(Hi & _) | (cand & d & _ & _ & _ & Hi & _)]; rewrite Hi in H.
    + by apply elem_of_nil in H.
    + rewrite transitions_decision_call in H.
      apply list_elem_of_singleton in H.
      destruct d; injection H as -> -> ->; try reflexivity; discriminate.
  - intros n v st H.
    destruct (promotion_outcome P self s p w)
      as [(Hi & _) | (cand & d & _ & _ & _ & Hi & _)]; rewrite Hi in H.
    + by apply elem_of_nil in H.
    + rewrite transitions_decision_call in H.
      apply list_elem_of_singleton in H.
      destruct d; injection H as -> -> ->; try reflexivity; discriminate.
  - intros Harch cand' L'.
    destruct (promotion_outcome P self s p w)
      as [(Hi & Hr & _) | (cand & d & _ & L & D & Hi & Hres)]; rewrite Hi.
    { rewrite Hr. split; [by left|]. split; auto. }
    rewrite transitions_decision_call.
    rewrite L in L'. injection L' as <-.
    assert (d = archive_staging) as ->
      by (apply (policy_deterministic (higher_is_better self) s p); auto).
    split; [by right|].
    assert (Hframe : forall i mv, registry w !! i = Some mv ->
              version_key mv <> (model_registry_name self, mv_version cand) ->
              registry (_run_promotion_logic P self s p w).2 !! i = Some mv).
    { intros i mv Hi' Hk.
      destruct Hres as [(e & _ & ->) | [_ ->]]; [assumption|].
      apply apply_archive_frame; [assumption|].
      destruct (is_version _ _ mv) eqn:V; [|reflexivity].
      apply is_version_key in V. contradiction. }
    split; [exact Hframe|].
    intros WF i mv Hi' Hp. apply Hframe; [assumption|]. intros Hk.
    apply latest_version_Some in L as (Hin & Hn & Hs & _).
    assert (mv = cand).
    { apply (well_formed_same_key (registry w)); auto.
      - by apply list_elem_of_lookup_2 in Hi'.
      - rewrite Hk. unfold version_key. by rewrite Hn. }
    subst mv. congruence.
  - intros Harch F cand L.
    destruct (promotion_decided P self s p w cand archive_staging F L
                (Harchive Harch)) as [Ht Hreg].
    split; [exact Ht|]. intros Hok i mv Hi Hk. rewrite (Hreg Hok).
    apply (apply_decision_candidate _ _ _ archive_staging); [assumption|].
    by apply is_version_key.
  - intros Hprom F cand L.
    exact (proj1 (promotion_decided P self s p w cand promote_staging F L
                    (Hpromote Hprom))).
Qed.

Lemma archive_leaves_other_versions_witness :
  let P := example_platform metric_0_80 metric_0_85 in
  let self := example_deployment "auc" true in
  let res := _run_promotion_logic P self metric_0_80 metric_0_85 example_world in
  py_le metric_0_80 metric_0_85 = true /\
  fault P (get_latest_versions "telco_churn" ["staging"]) example_world = None /\
  well_formed example_registry /\
  transitions
    (issued (_run_promotion_logic P self metric_0_80 metric_0_85) example_world) =
    [("telco_churn", 4%N, "archived", false)] /\
  registry res.2 !! 1%nat =
    Some {| mv_name := "telco_churn"; mv_version := 2;
            current_stage := Production |}.
Proof.
  cbv zeta. split; [reflexivity|]. split; [reflexivity|].
  assert (WF : well_formed example_registry).
  { unfold well_formed. apply (bool_decide_unpack _). vm_compute. exact I. }
  split; [exact WF|].
  destruct (archive_leaves_other_versions
              (example_platform metric_0_80 metric_0_85)
              (example_deployment "auc" true) metric_0_80 metric_0_85
              example_world) as (_ & _ & Harch & Hissued & _).
  split.
  - exact (proj1 (Hissued eq_refl eq_refl
                    {| mv_name := "telco_churn"; mv_version := 4;
                       current_stage := Staging |} eq_refl)).
  - destruct (Harch eq_refl
                {| mv_name := "telco_churn"; mv_version := 4;
                   current_stage := Staging |} eq_refl) as (_ & _ & Hprod).
    apply (Hprod WF); reflexivity.
Defined.

(** ** A metric the Evaluator does not give *)

(** In a world whose collaborators do not raise, the body stops with the
    KeyError of the first key it does not find in the Evaluator's output. *)
Lemma run_body_missing_key P self w :
  let uri := _get_model_uri_by_stage self in
  let data := reference_data self in
  let metric := comparison_metric self in
  let f_s := inference P (uri "staging") data (registry w) in
  let f_p := inference P (uri "production") data (registry w) in
  (forall c w', fault P c w' = None) ->
  forall yt ys,
    f_s !! label_col self = Some yt -> f_s !! "prediction" = Some ys ->
    match evaluation P yt ys "staging_" !! ("staging_" +:+ metric) with
    | None => (run_body P self w).1 = Raise (KeyError ("staging_" +:+ metric))
    | Some _ =>
        forall yt' ys',
          f_p !! label_col self = Some yt' -> f_p !! "prediction" = Some ys' ->
          evaluation P yt' ys' "production_" !! ("production_" +:+ metric) = None ->
          (run_body P self w).1 = Raise (KeyError ("production_" +:+ metric))
    end.
Proof.
  cbv zeta. intros Hnf yt ys C1 C2.
  destruct (evaluation P yt ys "staging_"
              !! ("staging_" +:+ comparison_metric self)) eqn:Ks;
    [intros yt' ys' C3 C4 Kp|];
    exec_unfold_body; exec_simpl;
    repeat first [ rewrite Hnf | rewrite C1 | rewrite C2 | rewrite C3
                 | rewrite C4 | rewrite Ks | rewrite Kp
                 | progress exec_simpl
                 | progress change ("staging" +:+ "_") with "staging_"
                 | progress change ("production" +:+ "_") with "production_" ];
    reflexivity.
Qed.

(** When no collaborator raises and an experiment is configured, the result
    of [run] is the result of the body of the [with] statement. *)
Lemma run_fault_free P self w :
  (forall c w', fault P c w' = None) ->
  selected_experiment self <> None ->
  exists w2, registry w2 = registry w /\
             (run P self w).1 = (run_body P self w2).1.
Proof.
  intros Hnf Hsel. rewrite run_unfold, set_experiment_outcome.
  unfold selected_experiment in Hsel.
  destruct (experiment_id self); [|destruct (experiment_path self)];
    [| |contradiction]; rewrite Hnf;
    match goal with
    | |- context [with_ _ _ _ ?W1] =>
        pose proof (with_run_outcome P self W1) as HW
    end;
    cbv zeta in HW; rewrite !Hnf in HW; rewrite HW;
    eexists; (split; [|reflexivity]); reflexivity.
Qed.

(** C4: when the Evaluator and the logging of its output do not raise,
    [_get_evaluation_metric] returns the value the Evaluator's output holds
    under the key made of the stage, an underscore and the metric name, and
    raises KeyError with that key when the output has no such key.  A run
    in which the Evaluator's output for the predictions of its own Staging
    frame, or of its own Production frame, lacks the key raises, makes no
    call to the registry (no lookup, no transition) and leaves the registry
    as it was; when no collaborator raises, the exception of the run is the
    KeyError with the first key that is missing. *)
Theorem missing_metric_stops_run P :
  (forall y_true y_score metric stage w,
     let prefix := stage +:+ "_" in
     let key := prefix +:+ metric in
     let d := evaluation P y_true y_score prefix in
     fault P (evaluate y_true y_score prefix) w = None ->
     fault P (log_metrics d) (record_call (evaluate y_true y_score prefix) w) = None ->
     (_get_evaluation_metric P y_true y_score metric stage w).1 =
       match d !! key with
       | Some v => Ok v
       | None => Raise (KeyError key)
       end) /\
  (forall self w,
     let uri := _get_model_uri_by_stage self in
     let f_s := inference P (uri "staging") (reference_data self) (registry w) in
     let f_p := inference P (uri "production") (reference_data self) (registry w) in
     (exists yt ys,
        f_s !! label_col self = Some yt /\ f_s !! "prediction" = Some ys /\
        evaluation P yt ys "staging_"
          !! ("staging_" +:+ comparison_metric self) = None) \/
     (exists yt' ys',
        f_p !! label_col self = Some yt' /\ f_p !! "prediction" = Some ys' /\
        evaluation P yt' ys' "production_"
          !! ("production_" +:+ comparison_metric self) = None) ->
     (exists e, (run P self w).1 = Raise e) /\
     Forall (fun c => registry_call c = false) (issued (run P self) w) /\
     transitions (issued (run P self) w) = [] /\
     registry (run P self w).2 = registry w) /\
  (forall self w,
     let uri := _get_model_uri_by_stage self in
     let f_s := inference P (uri "staging") (reference_data self) (registry w) in
     let f_p := inference P (uri "production") (reference_data self) (registry w) in
     (forall c w', fault P c w' = None) ->
     selected_experiment self <> None ->
     forall yt ys,
       f_s !! label_col self = Some yt -> f_s !! "prediction" = Some ys ->
       match evaluation P yt ys "staging_"
               !! ("staging_" +:+ comparison_metric self) with
       | None =>
           (run P self w).1 =
             Raise (KeyError ("staging_" +:+ comparison_metric self))
       | Some _ =>
           forall yt' ys',
             f_p !! label_col self = Some yt' ->
             f_p !! "prediction" = Some ys' ->
             evaluation P yt' ys' "production_"
               !! ("production_" +:+ comparison_metric self) = None ->
             (run P self w).1 =
               Raise (KeyError ("production_" +:+ comparison_metric self))
       end).
Proof.
  split; [|split].
  - intros y_true y_score metric stage w prefix key d F1 F2.
    unfold _get_evaluation_metric, bind, ModelEvaluation_evaluate,
      mlflow_log_metrics, external, ret, raise, update_tracking.
    fold prefix. rewrite F1. fold d. rewrite F2. fold key.
    destruct (d !! key); reflexivity.
  - intros self w. cbv zeta. intros Hmiss.
    pose proof (run_paths_exact P self w) as Hex. cbv zeta in Hex.
    destruct Hex
      as [(He & Hr & Hf & _)
         | (c0 & yt0 & ys0 & yt0' & ys0' & vs & vp & w0 & status &
            C1 & C2 & C3 & C4 & Ks & Kp & _)].
    + split; [exact He|]. split; [exact Hf|]. split; [|exact Hr].
      by apply no_registry_call_no_transition.
    + destruct Hmiss as [(yt & ys & D1 & D2 & K) | (yt & ys & D1 & D2 & K)].
      * rewrite C1 in D1. rewrite C2 in D2.
        injection D1 as <-. injection D2 as <-. rewrite K in Ks. discriminate Ks.
      * rewrite C3 in D1. rewrite C4 in D2.
        injection D1 as <-. injection D2 as <-. rewrite K in Kp. discriminate Kp.
  - intros self w. cbv zeta. intros Hnf Hsel yt ys C1 C2.
    destruct (run_fault_free P self w Hnf Hsel) as (w2 & Hr2 & ->).
    pose proof (run_body_missing_key P self w2 Hnf yt ys) as Hb.
    cbv zeta in Hb. rewrite Hr2 in Hb. exact (Hb C1 C2).
Qed.

Lemma missing_metric_stops_run_witness :
  let P := example_platform metric_0_85 metric_0_80 in
  let self := example_deployment "f1_score" true in
  let f_s := inference P (_get_model_uri_by_stage self "staging")
               (reference_data self) (registry example_world) in
  (exists yt ys,
     f_s !! label_col self = Some yt /\ f_s !! "prediction" = Some ys /\
     evaluation P yt ys "staging_"
       !! ("staging_" +:+ comparison_metric self) = None) /\
  (run P self example_world).1 = Raise (KeyError "staging_f1_score") /\
  transitions (issued (run P self) example_world) = [] /\
  registry (run P self example_world).2 = example_registry.
Proof.
  cbv zeta.
  assert (Hmiss : exists yt ys,
    inference (example_platform metric_0_85 metric_0_80)
      (_get_model_uri_by_stage (example_deployment "f1_score" true) "staging")
      (reference_data (example_deployment "f1_score" true))
      (registry example_world)
      !! label_col (example_deployment "f1_score" true) = Some yt /\
    inference (example_platform metric_0_85 metric_0_80)
      (_get_model_uri_by_stage (example_deployment "f1_score" true) "staging")
      (reference_data (example_deployment "f1_score" true))
      (registry example_world) !! "prediction" = Some ys /\
    evaluation (example_platform metric_0_85 metric_0_80) yt ys "staging_"
      !! ("staging_" +:+ comparison_metric (example_deployment "f1_score" true))
    = None).
  { exists [S754_zero false; metric_0_80], [metric_0_10; metric_0_85].
    split; [reflexivity|]. split; reflexivity. }
  split; [exact Hmiss|].
  destruct (missing_metric_stops_run
              (example_platform metric_0_85 metric_0_80))
    as (_ & Hstop & Hkey).
  split.
  - exact (Hkey (example_deployment "f1_score" true) example_world
             (fun _ _ => eq_refl) ltac:(discriminate)
             [S754_zero false; metric_0_80] [metric_0_10; metric_0_85]
             eq_refl eq_refl).
  - destruct (Hstop (example_deployment "f1_score" true) example_world
                (or_introl Hmiss)) as (_ & _ & Ht & Hr).
    split; [exact Ht | exact Hr].
Defined.

(** ** What the promotion step logs *)

(** What [_run_promotion_logic] writes to the log, and what it asks of the
    registry, by the answer of the lookup and the two metrics.  When the
    lookup raises or gives no version, nothing is logged and no transition
    is issued.  Otherwise the metric name and the flag are logged first;
    then, when the Staging metric is not better, the two records of the
    archive branch, and the one transition of the version found to
    "archived" is issued; when it is better, the three records of the
    promotion branch, and the one transition of that version to
    "production", archiving the existing versions, is issued; when neither
    comparison holds, nothing more is logged and no transition is issued. *)
Theorem log_goes_with_transition P self s p w :
  let name := model_registry_name self in
  let ts := transitions (issued (_run_promotion_logic P self s p) w) in
  let rs := recorded (_run_promotion_logic P self s p) w in
  let head := [log_metric (comparison_metric self);
               log_higher_is_better (higher_is_better self)] in
  let not_better := if higher_is_better self then py_le s p else py_ge s p in
  let better := if higher_is_better self then py_gt s p else py_lt s p in
  match fault P (get_latest_versions name ["staging"]) w,
        latest_version (registry w) name Staging with
  | None, Some cand =>
      if not_better then
        rs = head ++ [log_does_not_perform_better; log_transition_to_archived] /\
        ts = [(name, mv_version cand, "archived", false)]
      else if better then
        rs = head ++ [log_does_perform_better; log_transition_to_production;
                      log_existing_production_archived] /\
        ts = [(name, mv_version cand, "production", true)]
      else rs = head /\ ts = []
  | _, _ => rs = [] /\ ts = []
  end.
Proof.
  cbv zeta. unfold issued, recorded.
  destruct (_run_promotion_logic P self s p w) as [r w'] eqn:E. revert E.
  exec_unfold. exec_simpl. repeat exec_step; exec_leaf; split; reflexivity.
Qed.

(** ** The run and the tracking store *)

(** The tracking store after a run.  When [_set_experiment] returned, the
    experiment the deployment asks for is the active one at the end of the
    run, whatever happened in between.  The dictionaries the run logs are
    none; or the Evaluator's output for the label and prediction columns of
    the frame of the Staging model; or that followed by its output for the
    two columns of the frame of the Production model.  A run that issues a
    transition has logged both. *)
Theorem run_tracking_store P self w :
  let uri := _get_model_uri_by_stage self in
  let f_s := inference P (uri "staging") (reference_data self) (registry w) in
  let f_p := inference P (uri "production") (reference_data self) (registry w) in
  let after := tracking (run P self w).2 in
  let L := logged_by (run P self) w in
  let ts := transitions (issued (run P self) w) in
  ((_set_experiment P self w).1 = Ok tt ->
   active_experiment after = selected_experiment self) /\
  ((L = [] /\ ts = []) \/
   exists yt ys,
     f_s !! label_col self = Some yt /\ f_s !! "prediction" = Some ys /\
     ((L = [evaluation P yt ys "staging_"] /\ ts = []) \/
      exists yt' ys',
        f_p !! label_col self = Some yt' /\ f_p !! "prediction" = Some ys' /\
        L = [evaluation P yt ys "staging_";
             evaluation P yt' ys' "production_"])).
Proof.
  cbv zeta. split.
  - destruct (run_calls P self w)
      as [[[(Hf & (e & _ & He) & Ht) | (c0 & Hi & Hs & _ & Ha & Hl)] _]
         | (c0 & w2 & status & Hs & _ & Ha & Hl & _ & _ & _ & Hi & _ & Hres)].
    + intros Hok; congruence.
    + auto.
    + destruct (run_body_tracking P self w2) as (Hab & _).
      assert (Hta : active_experiment (tracking (run P self w).2) =
                    active_experiment (tracking (run_body P self w2).2)).
      { destruct Hres as [[_ ->] | [_ ->]];
          [apply tracking_end_run_frame|reflexivity]. }
      intros _; congruence.
  - pose proof (run_paths_exact P self w) as Hex. cbv zeta in Hex.
    destruct Hex
      as [(_ & _ & Hf & HL)
         | (c0 & yt & ys & yt' & ys' & vs & vp & w0 & status &
            C1 & C2 & C3 & C4 & _ & _ & _ & _ & _ & _ & HL & _)].
    + pose proof (no_registry_call_no_transition _ Hf) as Ht.
      destruct HL as [HL | (yt & ys & C1 & C2 & [HL | HL])].
      * left. by split.
      * right. exists yt, ys. split; [exact C1|]. split; [exact C2|]. left.
        by split.
      * right. exists yt, ys. split; [exact C1|]. split; [exact C2|]. right.
        exact HL.
    + right. exists yt, ys. split; [exact C1|]. split; [exact C2|]. right.
      exists yt', ys'. auto.
Qed.

Lemma run_tracking_store_witness :
  let P := example_platform metric_0_85 metric_0_80 in
  let self := example_deployment "auc" true in
  (_set_experiment P self example_world).1 = Ok tt /\
  active_experiment (tracking (run P self example_world).2) = Some (by_id 42).
Proof.
  cbv zeta. split; [reflexivity|].
  exact (proj1 (run_tracking_store (example_platform metric_0_85 metric_0_80)
                  (example_deployment "auc" true) example_world) eq_refl).
Defined.

(** ** A run that returns *)

(** A run that returns has both metrics and has ended its scope after the
    promotion step returned. *)
Lemma run_ok_exact P self w :
  let uri := _get_model_uri_by_stage self in
  let data := reference_data self in
  let metric := comparison_metric self in
  let f_s := inference P (uri "staging") data (registry w) in
  let f_p := inference P (uri "production") data (registry w) in
  (run P self w).1 = Ok tt ->
  exists c0 yt ys yt' ys' vs vp w0,
    f_s !! label_col self = Some yt /\ f_s !! "prediction" = Some ys /\
    f_p !! label_col self = Some yt' /\ f_p !! "prediction" = Some ys' /\
    evaluation P yt ys "staging_" !! ("staging_" +:+ metric) = Some vs /\
    evaluation P yt' ys' "production_" !! ("production_" +:+ metric) = Some vp /\
    registry w0 = registry w /\
    setup_call c0 = true /\
    (_run_promotion_logic P self vs vp w0).1 = Ok tt /\
    issued (run P self) w =
      [c0; start_run "Model Comparison";
       run_batch (uri "staging") data; run_batch (uri "production") data;
       toPandas f_s; toPandas f_p;
       evaluate yt ys "staging_";
       log_metrics (evaluation P yt ys "staging_");
       evaluate yt' ys' "production_";
       log_metrics (evaluation P yt' ys' "production_")]
      ++ issued (_run_promotion_logic P self vs vp) w0 ++ [end_run FINISHED] /\
    logged_by (run P self) w =
      [evaluation P yt ys "staging_"; evaluation P yt' ys' "production_"] /\
    registry (run P self w).2 =
      registry (_run_promotion_logic P self vs vp w0).2 /\
    active_runs (tracking (run P self w).2) = active_runs (tracking w) /\
    ended_runs (tracking (run P self w).2) =
      ended_runs (tracking w) ++ [("Model Comparison", FINISHED)].
Proof.
  cbv zeta. intros Hok.
  pose proof (run_paths_exact P self w) as Hex. cbv zeta in Hex.
  destruct Hex
    as [((e & He) & _)
       | (c0 & yt & ys & yt' & ys' & vs & vp & w0 & status &
          C1 & C2 & C3 & C4 & Ks & Kp & Hr0 & Hs & Hst & Hi & HL & Hr & Hres)];
    [congruence|].
  destruct Hres as [(Hres & Har & Her) | (e & w' & _ & He)]; [|congruence].
  rewrite Hok in Hres. rewrite <- Hres in Hst. subst status.
  exists c0, yt, ys, yt', ys', vs, vp, w0. auto 20.
Qed.

Lemma transitions_of_run_calls c0 (cs1 : list Call) u1 u2 d f1 f2 a b e1 a' b' e2 st :
  setup_call c0 = true ->
  transitions
    ([c0; start_run "Model Comparison"; run_batch u1 d; run_batch u2 d;
      toPandas f1; toPandas f2; evaluate a b "staging_"; log_metrics e1;
      evaluate a' b' "production_"; log_metrics e2] ++ cs1 ++ [end_run st]) =
  transitions cs1.
Proof.
  intros Hs. rewrite !transitions_app.
  replace (transitions [end_run st]) with (@nil (string * N * string * bool))
    by reflexivity.
  rewrite app_nil_r. by destruct c0.
Qed.

(** A run that returns has carried the decision out.  When [run] returns
    normally, the label and prediction columns were found in the frames of
    the Staging and of the Production model, the Evaluator was called on
    them, its two outputs were logged and hold the two metrics, the run
    scope was opened and ended FINISHED, and either one case of the policy
    applies to the two metrics, the one transition for it was issued on the
    latest Staging version and the registry is the old one with that
    decision carried out, or no case applies (a metric is NaN), no
    transition was issued and the registry is as it was. *)
Theorem successful_run_has_decided P self w :
  let name := model_registry_name self in
  let uri := _get_model_uri_by_stage self in
  let f_s := inference P (uri "staging") (reference_data self) (registry w) in
  let f_p := inference P (uri "production") (reference_data self) (registry w) in
  let ts := transitions (issued (run P self) w) in
  let after := run P self w in
  after.1 = Ok tt ->
  exists yt ys yt' ys' vs vp,
    f_s !! label_col self = Some yt /\ f_s !! "prediction" = Some ys /\
    f_p !! label_col self = Some yt' /\ f_p !! "prediction" = Some ys' /\
    evaluate yt ys "staging_" ∈ issued (run P self) w /\
    evaluate yt' ys' "production_" ∈ issued (run P self) w /\
    logged_by (run P self) w =
      [evaluation P yt ys "staging_"; evaluation P yt' ys' "production_"] /\
    evaluation P yt ys "staging_"
      !! ("staging_" +:+ comparison_metric self) = Some vs /\
    evaluation P yt' ys' "production_"
      !! ("production_" +:+ comparison_metric self) = Some vp /\
    active_runs (tracking after.2) = active_runs (tracking w) /\
    ended_runs (tracking after.2) =
      ended_runs (tracking w) ++ [("Model Comparison", FINISHED)] /\
    ((exists cand d,
        latest_version (registry w) name Staging = Some cand /\
        policy (higher_is_better self) vs vp d /\
        ts = [(name, mv_version cand, decision_stage d,
               decision_archive_existing d)] /\
        registry after.2 = apply_decision name (mv_version cand) d (registry w))
     \/
     ((forall d, ~ policy (higher_is_better self) vs vp d) /\
      (is_nan vs = true \/ is_nan vp = true) /\
      ts = [] /\ registry after.2 = registry w)).
Proof.
  cbv zeta. intros Hok.
  pose proof (run_ok_exact P self w Hok) as Hex. cbv zeta in Hex.
  destruct Hex
    as (c0 & yt & ys & yt' & ys' & vs & vp & w0 & C1 & C2 & C3 & C4 & Ks & Kp &
        Hr0 & Hs & Hpok & Hi & HL & Hr & Har & Her).
  exists yt, ys, yt', ys', vs, vp.
  assert (Ht : transitions (issued (run P self) w) =
               transitions (issued (_run_promotion_logic P self vs vp) w0))
    by (rewrite Hi; apply transitions_of_run_calls; exact Hs).
  rewrite Ht, Hr.
  do 4 (split; [assumption|]).
  split; [rewrite Hi; apply elem_of_app; left; do 6 right; left|].
  split; [rewrite Hi; apply elem_of_app; left; do 8 right; left|].
  do 5 (split; [assumption|]).
  destruct (promotion_outcome P self vs vp w0)
    as [(Hp & Hreg & [(e & _ & He) | [(_ & _ & He) | (_ & Hno & _)]])
       | (cand & d & _ & L & D & Hp & [(e & He & _) | [_ Hreg]])];
    try congruence.
  - right. rewrite Hp. split; [exact Hno|]. split; [|split; [reflexivity|congruence]].
    destruct (is_nan vs) eqn:Ns; [by left|].
    destruct (is_nan vp) eqn:Np; [by right|].
    destruct (policy_defined (higher_is_better self) vs vp Ns Np) as [d D].
    destruct (Hno d D).
  - left. exists cand, d. rewrite Hp, <- Hr0.
    repeat split; try assumption.
Qed.

Lemma successful_run_has_decided_witness :
  let P := example_platform metric_0_85 metric_0_80 in
  let self := example_deployment "auc" true in
  (run P self example_world).1 = Ok tt /\
  logged_by (run P self) example_world =
    [ {["staging_auc" := metric_0_85]}; {["production_auc" := metric_0_80]} ] /\
  ended_runs (tracking (run P self example_world).2) =
    [("Model Comparison", FINISHED)].
Proof.
  cbv zeta.
  assert (Hok : (run (example_platform metric_0_85 metric_0_80)
                   (example_deployment "auc" true) example_world).1 = Ok tt)
    by (vm_compute; reflexivity).
  split; [exact Hok|].
  destruct (successful_run_has_decided _ _ _ Hok)
    as (yt & ys & yt' & ys' & vs & vp & _ & _ & _ & _ & _ & _ & HL & _ & _ & _ &
        Her & _).
  split; [|exact Her].
  rewrite HL. reflexivity.
Defined.

(** ** The promoted version *)

(** After a run that returns and has issued the transition to "production",
    the transition named the configured model and its latest Staging
    version, that version is in stage Production at the place in the
    registry where it was in Staging before, and it is the only version of
    the model in stage Production: every Production version of the model has
    the number the transition named. *)
Theorem promotion_leaves_one_production P self w n v :
  (run P self w).1 = Ok tt ->
  (n, v, "production", true) ∈ transitions (issued (run P self) w) ->
  n = model_registry_name self /\
  (exists i cand,
     latest_version (registry w) n Staging = Some cand /\
     v = mv_version cand /\
     registry w !! i = Some cand /\
     registry (run P self w).2 !! i =
       Some {| mv_name := n; mv_version := v; current_stage := Production |}) /\
  (exists mv, mv ∈ registry (run P self w).2 /\
     mv_name mv = n /\ mv_version mv = v /\ current_stage mv = Production) /\
  (forall mv, mv ∈ registry (run P self w).2 ->
     mv_name mv = model_registry_name self ->
     current_stage mv = Production -> mv_version mv = v).
Proof.
  intros Hok Hin.
  pose proof (run_ok_exact P self w Hok) as Hex. cbv zeta in Hex.
  destruct Hex
    as (c0 & yt & ys & yt' & ys' & vs & vp & w0 & _ & _ & _ & _ & _ & _ &
        Hr0 & Hs & Hpok & Hi & _ & Hr & _).
  assert (Ht : transitions (issued (run P self) w) =
               transitions (issued (_run_promotion_logic P self vs vp) w0))
    by (rewrite Hi; apply transitions_of_run_calls; exact Hs).
  rewrite Ht in Hin. rewrite Hr.
  destruct (promotion_outcome P self vs vp w0)
    as [(Hp & _) | (cand & d & _ & L & D & Hp & [(e & He & _) | [_ Hreg]])];
    try congruence; rewrite Hp in Hin.
  { by apply elem_of_nil in Hin. }
  rewrite transitions_decision_call in Hin.
  apply list_elem_of_singleton in Hin.
  destruct d; [discriminate Hin|]. injection Hin as -> ->.
  rewrite Hreg, Hr0 in *.
  pose proof (latest_version_Some _ _ _ _ L) as (Hc & Hn & Hst & _).
  apply list_elem_of_lookup_1 in Hc as [i Hc].
  assert (Hnew : apply_decision (model_registry_name self) (mv_version cand)
                   promote_staging (registry w) !! i =
                 Some {| mv_name := model_registry_name self;
                         mv_version := mv_version cand;
                         current_stage := Production |}).
  { rewrite (apply_decision_candidate _ _ _ promote_staging i cand Hc).
    - unfold with_stage. rewrite Hn. reflexivity.
    - apply is_version_key. unfold version_key. by rewrite Hn. }
  split; [reflexivity|]. split; [|split].
  - exists i, cand. auto.
  - eexists. split; [exact (list_elem_of_lookup_2 _ _ _ Hnew)|]. auto.
  - intros mv Hmv Hmn Hs'.
    by apply (promoted_is_only_production (model_registry_name self) _
                (registry w) mv).
Qed.

Lemma promotion_leaves_one_production_witness :
  let P := example_platform metric_0_85 metric_0_80 in
  let self := example_deployment "auc" true in
  (run P self example_world).1 = Ok tt /\
  ("telco_churn", 4%N, "production", true)
    ∈ transitions (issued (run P self) example_world) /\
  exists mv, mv ∈ registry (run P self example_world).2 /\
    mv_name mv = "telco_churn" /\ mv_version mv = 4%N /\
    current_stage mv = Production.
Proof.
  cbv zeta.
  assert (Hok : (run (example_platform metric_0_85 metric_0_80)
                   (example_deployment "auc" true) example_world).1 = Ok tt)
    by (vm_compute; reflexivity).
  assert (Hin : ("telco_churn", 4%N, "production", true)
            ∈ transitions
                (issued (run (example_platform metric_0_85 metric_0_80)
                           (example_deployment "auc" true)) example_world))
    by (vm_compute; left).
  split; [exact Hok|]. split; [exact Hin|].
  exact (proj1 (proj2 (proj2
    (promotion_leaves_one_production _ _ _ _ _ Hok Hin)))).
Defined.
